(** * soil-smarter: the prediction intake form and the dashboard aggregator

    A shallow embedding of the two components of the repository,
    [PredictionForm] (the intake form with its simulated prediction) and
    [Dashboard] (the three-way fetch and the derived statistics), and the
    properties of the specification proved over them.

    Numbers.  A TypeScript [number] is an IEEE 754 binary64 value.  The
    derived statistics of the dashboard, whose value is what the properties
    are about, are modelled in binary64 with the Standard Library's
    executable specification of IEEE 754 (module [DashboardBinary64]): the
    sum and the average round after every operation.  The form and the
    rendered page are modelled over exact rationals [Q] (every finite
    double is a rational; [+], [*], [/] are the exact operations); their
    properties concern ranges, shape and which text is shown, and module
    [Binary64Facts] checks the exact model against binary64 on the concrete
    inputs used (2.5, 1.5, 1/2, 1023/1024) and shows an input on which the
    last digit differs. *)

From Stdlib Require Import List String Ascii Bool Arith ZArith QArith Qpower.
From Stdlib Require Import Lia Lqa.
From Stdlib Require Import Numbers.DecimalString Numbers.DecimalN.
From Stdlib Require Import Sorting.Sorted.
From Stdlib Require Import Floats.SpecFloat.
Import ListNotations.

Local Open Scope string_scope.

(** ** JavaScript numbers and [Number.prototype.toFixed] *)

Module JsNumber.

(** [n] with [n / 10^f - x] as close to zero as possible, the larger [n] on
    a tie (ECMAScript, Number.prototype.toFixed, for [x >= 0]): the floor of
    [x * 10^f + 1/2]. *)
Definition roundScaled (f : nat) (x : Q) : Z :=
  ((2 * Qnum x * 10 ^ Z.of_nat f + Z.pos (Qden x)) / (2 * Z.pos (Qden x)))%Z.

(** The decimal digits of a natural number, ["0"] for zero. *)
Definition digits (n : Z) : string :=
  NilEmpty.string_of_uint (N.to_uint (Z.to_N n)).

Fixpoint zeros (k : nat) : string :=
  match k with
  | O => ""
  | S k' => String "0" (zeros k')
  end.

(** Steps 9.c and 9.d of toFixed: left-pad the digits of [n] with zeros to
    at least [f + 1] characters and put the point before the last [f]. *)
Definition padded (f : nat) (n : Z) : string :=
  let m := digits n in
  let k := String.length m in
  if (k <=? f)%nat then zeros (f + 1 - k) ++ m else m.

Definition placePoint (f : nat) (m : string) : string :=
  match f with
  | O => m
  | _ =>
      let k := String.length m in
      substring 0 (k - f) m ++ "." ++ substring (k - f) f m
  end.

(** [x.toFixed(f)] for a finite [x] below 10^21 (above it JavaScript
    switches to exponent notation; no value of this program reaches it). *)
Definition toFixed (f : nat) (x : Q) : string :=
  match Qlt_le_dec x 0 with
  | left _ => "-" ++ placePoint f (padded f (roundScaled f (- x)))
  | right _ => placePoint f (padded f (roundScaled f x))
  end.

(** *** Reading a decimal string back

    The value denoted by a string of the shape [digits] or
    [digits.digits], with an optional leading minus sign: the digits with
    the point removed, divided by ten to the number of fraction digits. *)

Fixpoint splitPoint (s : string) : string * option string :=
  match s with
  | "" => ("", None)
  | String c t =>
      if Ascii.eqb c "." then ("", Some t)
      else let (a, r) := splitPoint t in (String c a, r)
  end.

Definition natural (s : string) : option Z :=
  match s with
  | "" => None
  | _ =>
      match NilEmpty.uint_of_string s with
      | Some u => Some (Z.of_N (N.of_uint u))
      | None => None
      end
  end.

Definition unsignedDecimal (s : string) : option Q :=
  match splitPoint s with
  | (a, None) =>
      match natural a with
      | Some n => Some (n # 1)
      | None => None
      end
  | (a, Some b) =>
      match a, b with
      | "", _ | _, "" => None
      | _, _ =>
          match natural (a ++ b) with
          | Some n => Some (n # Z.to_pos (10 ^ Z.of_nat (String.length b)))
          | None => None
          end
      end
  end.

Definition parseDecimal (s : string) : option Q :=
  match s with
  | String "-" t =>
      match unsignedDecimal t with
      | Some v => Some (- v)
      | None => None
      end
  | _ => unsignedDecimal s
  end.

(** *** The shape of a fixed-point decimal string *)

Definition isDigit (c : ascii) : bool :=
  match c with
  | "0" | "1" | "2" | "3" | "4" | "5" | "6" | "7" | "8" | "9" => true
  | _ => false
  end%char.

Fixpoint allDigits (s : string) : bool :=
  match s with
  | "" => true
  | String c t => isDigit c && allDigits t
  end.

Definition nonEmpty (s : string) : bool :=
  match s with
  | "" => false
  | _ => true
  end.

(** [s] is a non-empty run of digits, followed when [f > 0] by a point and
    exactly [f] digits. *)
Definition isFixedDecimal (f : nat) (s : string) : bool :=
  match splitPoint s with
  | (a, None) => (f =? 0)%nat && nonEmpty a && allDigits a
  | (a, Some b) =>
      negb (f =? 0)%nat && nonEmpty a && allDigits a && allDigits b
      && (String.length b =? f)%nat
  end.

End JsNumber.

(** ** The prediction intake form (component [PredictionForm]) *)

Module PredictionForm.

Record FormData := mkFormData {
  name : string;
  phone : string;
  location : string;
  crop : string;
  area : string;
  soilPh : string;
  soilMoisture : string;
  organicMatter : string
}.

(** [keyof FormData]. *)
Inductive Field :=
| Name | Phone | Location | Crop | Area | SoilPh | SoilMoisture | OrganicMatter.

Record Toast := mkToast {
  title : string;
  description : string;
  variant : option string
}.

Record Weather := mkWeather {
  temperature : string;
  rainfall : string
}.

(** The object literal [mockResult]; [toFixed] makes the four readings
    strings. *)
Record MockResult := mkMockResult {
  yield : string;
  weather : Weather;
  confidence : string;
  farmData : FormData
}.

(** What the component does to its surroundings, in order of occurrence. *)
Inductive Event :=
| PreventDefault
| ToastShown (t : Toast)
| OnPrediction (result : MockResult).

(** The arrow function handed to [setTimeout], with the [formData] of the
    render it closes over. *)
Inductive Callback :=
| SimulatedApiCall (captured : FormData).

Record Timer := mkTimer {
  due : nat;
  callback : Callback
}.

(** The two [useState] cells of the component, the timer queue and clock
    (milliseconds) of the event loop, the number of [Math.random()] calls
    made so far, and the trace of events. *)
Record World := mkWorld {
  formData : FormData;
  isLoading : bool;
  now : nat;
  timers : list Timer;
  randomCalls : nat;
  trace : list Event
}.

Definition initialFormData : FormData :=
  mkFormData "" "" "" "" "" "" "" "".

Definition initialWorld : World :=
  mkWorld initialFormData false 0 [] 0 [].

(** A state monad over [World]. *)
Definition M (A : Type) : Type := World -> A * World.

Definition ret {A} (a : A) : M A := fun w => (a, w).

Definition bind {A B} (c : M A) (k : A -> M B) : M B :=
  fun w => let (a, w') := c w in k a w'.

Declare Scope form_scope.
Delimit Scope form_scope with form.
Notation "x <- c ;; k" := (bind c (fun x => k))
  (at level 61, c at next level, right associativity) : form_scope.
Notation "c ;; k" := (bind c (fun _ => k))
  (at level 61, right associativity) : form_scope.
Local Open Scope form_scope.

Definition exec {A} (c : M A) (w : World) : World := snd (c w).

Definition emit (e : Event) : M unit := fun w =>
  (tt, mkWorld (formData w) (isLoading w) (now w) (timers w) (randomCalls w)
         (trace w ++ [e])).

Definition setIsLoading (b : bool) : M unit := fun w =>
  (tt, mkWorld (formData w) b (now w) (timers w) (randomCalls w) (trace w)).

Definition setFormData (f : FormData -> FormData) : M unit := fun w =>
  (tt, mkWorld (f (formData w)) (isLoading w) (now w) (timers w)
         (randomCalls w) (trace w)).

Definition getFormData : M FormData := fun w => (formData w, w).

(** Modelled from the spec: the [toast] function of the [use-toast] hook,
    which is not among the sources.  The specification calls what it shows
    a blocking user-facing notice; a call is recorded as the event
    [ToastShown] with the object it was given. *)
Definition toast (t : Toast) : M unit := emit (ToastShown t).

Definition onPrediction (result : MockResult) : M unit :=
  emit (OnPrediction result).

Definition setTimeout (cb : Callback) (delay : nat) : M unit := fun w =>
  (tt, mkWorld (formData w) (isLoading w) (now w)
         (timers w ++ [mkTimer (now w + delay) cb]) (randomCalls w) (trace w)).

(** [{ ...prev, [field]: value }]. *)
Definition withField (field : Field) (value : string) (prev : FormData)
  : FormData :=
  match field with
  | Name => mkFormData value (phone prev) (location prev) (crop prev)
      (area prev) (soilPh prev) (soilMoisture prev) (organicMatter prev)
  | Phone => mkFormData (name prev) value (location prev) (crop prev)
      (area prev) (soilPh prev) (soilMoisture prev) (organicMatter prev)
  | Location => mkFormData (name prev) (phone prev) value (crop prev)
      (area prev) (soilPh prev) (soilMoisture prev) (organicMatter prev)
  | Crop => mkFormData (name prev) (phone prev) (location prev) value
      (area prev) (soilPh prev) (soilMoisture prev) (organicMatter prev)
  | Area => mkFormData (name prev) (phone prev) (location prev) (crop prev)
      value (soilPh prev) (soilMoisture prev) (organicMatter prev)
  | SoilPh => mkFormData (name prev) (phone prev) (location prev) (crop prev)
      (area prev) value (soilMoisture prev) (organicMatter prev)
  | SoilMoisture => mkFormData (name prev) (phone prev) (location prev)
      (crop prev) (area prev) (soilPh prev) value (organicMatter prev)
  | OrganicMatter => mkFormData (name prev) (phone prev) (location prev)
      (crop prev) (area prev) (soilPh prev) (soilMoisture prev) value
  end.

Definition handleInputChange (field : Field) (value : string) : M unit :=
  setFormData (withField field value).

(** [!s] on a string: only the empty string is falsy. *)
Definition falsy (s : string) : bool := (s =? "")%string.

Definition missingInformation : Toast :=
  mkToast "Missing Information" "Please fill in all required fields."
    (Some "destructive").

Definition predictionComplete : Toast :=
  mkToast "Prediction Complete!"
    "Your yield prediction has been generated successfully." None.

(** The object literal [mockResult], given the values of its four
    [Math.random()] calls. *)
Definition mockResult (r1 r2 r3 r4 : Q) (formData : FormData) : MockResult :=
  mkMockResult
    (JsNumber.toFixed 2 (r1 * 3 + 2))
    (mkWeather
       (JsNumber.toFixed 1 (r2 * 10 + 18))
       (JsNumber.toFixed 0 (r3 * 60 + 30)))
    (JsNumber.toFixed 0 (r4 * 20 + 80))
    formData.

Section WithRandom.

(** [random k] is what the [k]-th call of [Math.random()] returns. *)
Variable random : nat -> Q.

Definition mathRandom : M Q := fun w =>
  (random (randomCalls w),
   mkWorld (formData w) (isLoading w) (now w) (timers w)
     (S (randomCalls w)) (trace w)).

Definition handleSubmit : M unit :=
  emit PreventDefault ;;
  setIsLoading true ;;
  formData <- getFormData ;;
  if falsy (name formData) || falsy (phone formData)
     || falsy (location formData) || falsy (crop formData)
  then
    toast missingInformation ;;
    setIsLoading false
  else
    setTimeout (SimulatedApiCall formData) 2000.

(** The body of the arrow function of [setTimeout].  The four draws are made
    in the order in which the object literal evaluates its properties. *)
Definition runCallback (cb : Callback) : M unit :=
  match cb with
  | SimulatedApiCall formData =>
      r1 <- mathRandom ;;
      r2 <- mathRandom ;;
      r3 <- mathRandom ;;
      r4 <- mathRandom ;;
      onPrediction (mockResult r1 r2 r3 r4 formData) ;;
      setIsLoading false ;;
      toast predictionComplete
  end.

Fixpoint runCallbacks (cbs : list Callback) : M unit :=
  match cbs with
  | [] => ret tt
  | cb :: rest => runCallback cb ;; runCallbacks rest
  end.

(** The event loop lets [ms] milliseconds pass: the timers that are due run
    in the order in which they were set (all delays of this component are
    equal, so this is also the order of their due times). *)
Definition advance (ms : nat) : M unit := fun w =>
  let t := (now w + ms)%nat in
  let (ready, later) := partition (fun tm => (due tm <=? t)%nat) (timers w) in
  runCallbacks (map callback ready)
    (mkWorld (formData w) (isLoading w) t later (randomCalls w) (trace w)).

(** The callbacks that [advance ms] runs. *)
Definition readyCallbacks (ms : nat) (w : World) : list Callback :=
  map callback
    (fst (partition (fun tm => (due tm <=? now w + ms)%nat) (timers w))).

(** The events a run of callbacks produces when [k] draws were made
    before it. *)
Fixpoint callbackEvents (k : nat) (cbs : list Callback) : list Event :=
  match cbs with
  | [] => []
  | SimulatedApiCall formData :: rest =>
      OnPrediction
        (mockResult (random k) (random (1 + k)) (random (2 + k))
           (random (3 + k)) formData)
      :: ToastShown predictionComplete
      :: callbackEvents (4 + k) rest
  end.

(** One submission of the form, followed to the end of its delay. *)
Definition submitAndWait : M unit :=
  handleSubmit ;; advance 2000.

End WithRandom.

(** The result objects handed to [onPrediction], oldest first. *)
Fixpoint predictionsDelivered (tr : list Event) : list MockResult :=
  match tr with
  | [] => []
  | OnPrediction result :: rest => result :: predictionsDelivered rest
  | _ :: rest => predictionsDelivered rest
  end.

Fixpoint toastsShown (tr : list Event) : list Toast :=
  match tr with
  | [] => []
  | ToastShown t :: rest => t :: toastsShown rest
  | _ :: rest => toastsShown rest
  end.

(** *** Vocabulary of the properties *)

(** [Math.random()] returns a number in [0, 1). *)
Definition unitDraws (random : nat -> Q) : Prop :=
  forall k, 0 <= random k /\ random k < 1.

Definition requiredFilled (fd : FormData) : Prop :=
  name fd <> "" /\ phone fd <> "" /\ location fd <> "" /\ crop fd <> "".

Definition requiredMissing (fd : FormData) : Prop :=
  name fd = "" \/ phone fd = "" \/ location fd = "" \/ crop fd = "".





(** *** Sequences of events *)

(** [formData[field]]. *)
Definition fieldOf (field : Field) (fd : FormData) : string :=
  match field with
  | Name => name fd
  | Phone => phone fd
  | Location => location fd
  | Crop => crop fd
  | Area => area fd
  | SoilPh => soilPh fd
  | SoilMoisture => soilMoisture fd
  | OrganicMatter => organicMatter fd
  end.

(** The fields that the validation of [handleSubmit] tests. *)
Definition isRequired (field : Field) : bool :=
  match field with
  | Name | Phone | Location | Crop => true
  | _ => false
  end.


(** What can happen to a mounted form: an input changes, the form is
    submitted, time passes. *)
Inductive Action :=
| Change (field : Field) (value : string)
| Submit
| Elapse (ms : nat).

Definition perform (random : nat -> Q) (a : Action) : M unit :=
  match a with
  | Change field value => handleInputChange field value
  | Submit => handleSubmit
  | Elapse ms => advance random ms
  end.

Fixpoint performAll (random : nat -> Q) (actions : list Action) : M unit :=
  match actions with
  | [] => ret tt
  | a :: rest => perform random a ;; performAll random rest
  end.

(** The submit button is rendered with [disabled={isLoading}]: while
    [isLoading] holds a press does not reach [handleSubmit]. *)
Definition pressSubmit : M unit := fun w =>
  if isLoading w then (tt, w) else handleSubmit w.

Definition userPerform (random : nat -> Q) (a : Action) : M unit :=
  match a with
  | Submit => pressSubmit
  | _ => perform random a
  end.

Fixpoint userPerformAll (random : nat -> Q) (actions : list Action)
  : M unit :=
  match actions with
  | [] => ret tt
  | a :: rest => userPerform random a ;; userPerformAll random rest
  end.

(** Counting in a trace: the calls of [handleSubmit], the "Missing
    Information" notices and the "Prediction Complete!" notices. *)
Definition isSubmission (e : Event) : bool :=
  match e with
  | PreventDefault => true
  | _ => false
  end.

Definition isRejection (e : Event) : bool :=
  match e with
  | ToastShown t => (title t =? "Missing Information")%string
  | _ => false
  end.

Definition isCompletion (e : Event) : bool :=
  match e with
  | ToastShown t => (title t =? "Prediction Complete!")%string
  | _ => false
  end.

Definition submissions (tr : list Event) : nat :=
  List.length (filter isSubmission tr).

Definition rejections (tr : list Event) : nat :=
  List.length (filter isRejection tr).

Definition completions (tr : list Event) : nat :=
  List.length (filter isCompletion tr).

(** Every call of [handleSubmit] was rejected, is waiting for its timer, or
    has delivered its result; and every delivery came with its notice. *)
Definition accounted (w : World) : Prop :=
  submissions (trace w)
  = (rejections (trace w) + List.length (timers w)
     + List.length (predictionsDelivered (trace w)))%nat
  /\ completions (trace w) = List.length (predictionsDelivered (trace w)).


(** The form is idle, or loading with exactly one timer that is not due. *)
Definition oneInFlight (w : World) : Prop :=
  (isLoading w = false /\ timers w = [])
  \/ (isLoading w = true
      /\ exists tm, timers w = [tm] /\ (now w < due tm)%nat).

End PredictionForm.

(** ** The dashboard (component [Dashboard]) *)

Module Dashboard.

Module Farm.
Record t := mk {
  id : string;
  name : string;
  location : string;
  crop_type : string;
  area_hectares : Q;
  created_at : string
}.
End Farm.

Module Prediction.
Record t := mk {
  id : string;
  yield_per_hectare : Q;
  confidence_score : Q;
  created_at : string;
  farm_id : string
}.
End Prediction.

Module Profile.
Record t := mk {
  display_name : string;
  farm_size_hectares : option Q;
  primary_crops : option (list string);
  subscription_tier : string
}.
End Profile.

(** Modelled from the spec: the signed-in user that the [useAuth] hook, not
    among the sources, returns ([null] when nobody is signed in), as far as
    the component reads it. *)
Record User := mkUser {
  email : option string
}.

(** *** Queries

    Modelled from the spec: the query client [supabase], which is not among
    the sources, "an external backend-as-a-service query interface
    supporting select, order, limit, single on named tables".  A query is
    the table named by [from] and the builder calls chained on it, in
    order; what the service answers is an input of the model. *)

Inductive Call :=
| Select (columns : string)
| Order (column : string) (ascending : bool)
| Limit (count : nat)
| Single.

Record Query := mkQuery {
  table : string;
  calls : list Call
}.

Definition from (t : string) : Query := mkQuery t [].

Definition chain (c : Call) (q : Query) : Query :=
  mkQuery (table q) (calls q ++ [c]).

Definition select (columns : string) : Query -> Query :=
  chain (Select columns).

Definition order (column : string) (ascending : bool) : Query -> Query :=
  chain (Order column ascending).

Definition limit (count : nat) : Query -> Query :=
  chain (Limit count).

Definition single : Query -> Query :=
  chain Single.

Notation "q '|>' f" := (f q) (at level 45, left associativity, only parsing).

(** The three elements of the array given to [Promise.all]. *)
Definition farmsQuery : Query :=
  from "farms" |> select "*" |> order "created_at" false.

Definition predictionsQuery : Query :=
  from "predictions" |> select "*" |> order "created_at" false |> limit 10.

Definition profileQuery : Query :=
  from "profiles" |> select "*" |> single.

Definition dashboardQueries : list Query :=
  [farmsQuery; predictionsQuery; profileQuery].

(** How a promise settles. *)
Inductive Settled (A : Type) :=
| Fulfilled (value : A)
| Rejected (reason : string).
Arguments Fulfilled {A} value.
Arguments Rejected {A} reason.

(** The object a query resolves to; [data] is [null] when there is none. *)
Record Response (A : Type) := mkResponse {
  data : option A;
  error : option string
}.
Arguments mkResponse {A} data error.
Arguments data {A} r.
Arguments error {A} r.

(** What the service answers to the three queries. *)
Record Answers := mkAnswers {
  farmsAnswer : Settled (Response (list Farm.t));
  predictionsAnswer : Settled (Response (list Prediction.t));
  profileAnswer : Settled (Response Profile.t)
}.

(** [Promise.all] of three promises: fulfilled with the three values when
    all are, rejected as soon as one is.  (Of several rejections JavaScript
    keeps the earliest in time; the model keeps the first in array order.) *)
Definition promiseAll {A B C} (a : Settled A) (b : Settled B) (c : Settled C)
  : Settled (A * B * C) :=
  match a, b, c with
  | Fulfilled x, Fulfilled y, Fulfilled z => Fulfilled (x, y, z)
  | Rejected r, _, _ => Rejected r
  | _, Rejected r, _ => Rejected r
  | _, _, Rejected r => Rejected r
  end.

(** *** State and effects *)

Record State := mkState {
  farms : list Farm.t;
  predictions : list Prediction.t;
  profile : option Profile.t;
  loading : bool
}.

Inductive Event :=
| Navigate (path : string)
| PromiseAll (queries : list Query)
| ConsoleError (message : string) (reason : string).

Record World := mkWorld {
  state : State;
  trace : list Event
}.

(** The initial values of the four [useState] cells. *)
Definition initialState : State := mkState [] [] None true.

Definition initialWorld : World := mkWorld initialState [].

Definition emit (e : Event) (w : World) : World :=
  mkWorld (state w) (trace w ++ [e]).

Definition setFarms (v : list Farm.t) (w : World) : World :=
  let s := state w in
  mkWorld (mkState v (predictions s) (profile s) (loading s)) (trace w).

Definition setPredictions (v : list Prediction.t) (w : World) : World :=
  let s := state w in
  mkWorld (mkState (farms s) v (profile s) (loading s)) (trace w).

Definition setProfile (v : Profile.t) (w : World) : World :=
  let s := state w in
  mkWorld (mkState (farms s) (predictions s) (Some v) (loading s)) (trace w).

Definition setLoading (b : bool) (w : World) : World :=
  let s := state w in
  mkWorld (mkState (farms s) (predictions s) (profile s) b) (trace w).

(** [if (r.data) set(r.data)]: arrays and objects are truthy, [null] is
    not. *)
Definition whenData {A} (r : Response A) (set : A -> World -> World)
  (w : World) : World :=
  match data r with
  | Some d => set d w
  | None => w
  end.

Definition fetchDashboardData (answers : Answers) (w : World) : World :=
  let w := emit (PromiseAll dashboardQueries) w in
  let w :=
    match promiseAll (farmsAnswer answers) (predictionsAnswer answers)
            (profileAnswer answers) with
    | Fulfilled (farmsResult, predictionsResult, profileResult) =>
        let w := whenData farmsResult setFarms w in
        let w := whenData predictionsResult setPredictions w in
        whenData profileResult setProfile w
    | Rejected error =>
        emit (ConsoleError "Error fetching dashboard data:" error) w
    end in
  setLoading false w.

(** The effect run on mount. *)
Definition mountEffect (user : option User) (answers : Answers) (w : World)
  : World :=
  match user with
  | None => emit (Navigate "/auth") w
  | Some _ => fetchDashboardData answers w
  end.

(** *** Derived values *)

(** The total and the average over exact rationals, for the texts of the
    page; [DashboardBinary64] has them as the source computes them. *)
Definition totalArea (farms : list Farm.t) : Q :=
  fold_left (fun sum farm => sum + Farm.area_hectares farm) farms 0.

Definition avgYield (predictions : list Prediction.t) : Q :=
  if (0 <? List.length predictions)%nat
  then fold_left (fun sum pred => sum + Prediction.yield_per_hectare pred)
         predictions 0
       / inject_Z (Z.of_nat (List.length predictions))
  else 0.

Record ChartPoint := mkChartPoint {
  date : string;
  yield : Q;
  confidence : Q
}.

(** [array.slice(0, n)]. *)
Definition slice0 {A} (n : nat) (l : list A) : list A := firstn n l.

Section WithLocale.

(** [new Date(s).toLocaleDateString()], which depends on the locale of the
    browser. *)
Variable toLocaleDateString : string -> string.

Definition chartPoint (pred : Prediction.t) : ChartPoint :=
  mkChartPoint
    (toLocaleDateString (Prediction.created_at pred))
    (Prediction.yield_per_hectare pred)
    (Prediction.confidence_score pred).

Definition chartData (predictions : list Prediction.t) : list ChartPoint :=
  rev (map chartPoint (slice0 7 predictions)).

(** *** The rendered view, as far as the properties below read it *)

Inductive TrendCard :=
| NoPredictionData
| LineChart (data : list ChartPoint).

Record PredictionRow := mkPredictionRow {
  farmName : string;
  yieldText : string;
  highConfidence : bool
}.

Record Page := mkPage {
  welcome : string;
  plan : string;
  totalFarms : nat;
  totalAreaText : string;
  avgYieldText : string;
  predictionCount : nat;
  trend : TrendCard;
  farmRows : list Farm.t;
  noFarmsYet : bool;
  predictionRows : list PredictionRow;
  noPredictionsYet : bool
}.

Inductive View :=
| Spinner
| Rendered (page : Page).

(** [s || fallback] on strings. *)
Definition orElse (s : option string) (fallback : string) : string :=
  match s with
  | Some v => if (v =? "")%string then fallback else v
  | None => fallback
  end.

Definition predictionRow (farms : list Farm.t) (prediction : Prediction.t)
  : PredictionRow :=
  let farm :=
    find (fun f => (Farm.id f =? Prediction.farm_id prediction)%string)
      farms in
  mkPredictionRow
    (orElse (option_map Farm.name farm) "Unknown Farm")
    (JsNumber.toFixed 1 (Prediction.yield_per_hectare prediction) ++ " t/ha")
    (negb (Qle_bool (Prediction.confidence_score prediction) 80)).

Definition render (s : State) : View :=
  if loading s then Spinner
  else
    Rendered
      (mkPage
         ("Welcome back, "
            ++ orElse (option_map Profile.display_name (profile s)) "Farmer")
         (orElse (option_map Profile.subscription_tier (profile s)) "Free"
            ++ " Plan")
         (List.length (farms s))
         (JsNumber.toFixed 1 (totalArea (farms s)) ++ " ha")
         (JsNumber.toFixed 1 (avgYield (predictions s)) ++ " t/ha")
         (List.length (predictions s))
         (if (0 <? List.length (chartData (predictions s)))%nat
          then LineChart (chartData (predictions s))
          else NoPredictionData)
         (slice0 5 (farms s))
         (List.length (farms s) =? 0)%nat
         (map (predictionRow (farms s)) (slice0 5 (predictions s)))
         (List.length (predictions s) =? 0)%nat).

End WithLocale.

(** *** Vocabulary of the properties *)

(** The sum and the arithmetic mean of a list of numbers, as the
    specification words them. *)
Fixpoint sum (l : list Q) : Q :=
  match l with
  | [] => 0
  | x :: rest => x + sum rest
  end.

Definition mean (l : list Q) : Q :=
  match l with
  | [] => 0
  | _ => sum l / inject_Z (Z.of_nat (List.length l))
  end.

(** What a query asks for, read off its builder calls. *)
Definition ordering (q : Query) : list (string * bool) :=
  flat_map (fun c => match c with
                     | Order column ascending => [(column, ascending)]
                     | _ => []
                     end) (calls q).

Definition rowLimit (q : Query) : option nat :=
  fold_left (fun acc c => match c with
                          | Limit n => Some n
                          | _ => acc
                          end) (calls q) None.

Definition isSingle (q : Query) : bool :=
  existsb (fun c => match c with Single => true | _ => false end) (calls q).

Definition selects (q : Query) : list string :=
  flat_map (fun c => match c with
                     | Select columns => [columns]
                     | _ => []
                     end) (calls q).

(** The queries handed to [Promise.all], call by call. *)
Fixpoint batches (tr : list Event) : list (list Query) :=
  match tr with
  | [] => []
  | PromiseAll qs :: rest => qs :: batches rest
  | _ :: rest => batches rest
  end.

Fixpoint consoleErrors (tr : list Event) : list (string * string) :=
  match tr with
  | [] => []
  | ConsoleError message reason :: rest =>
      (message, reason) :: consoleErrors rest
  | _ :: rest => consoleErrors rest
  end.

Definition isRejected {A} (p : Settled A) : bool :=
  match p with
  | Rejected _ => true
  | Fulfilled _ => false
  end.

Definition anyRejected (answers : Answers) : bool :=
  isRejected (farmsAnswer answers)
  || isRejected (predictionsAnswer answers)
  || isRejected (profileAnswer answers).

(** The query failed or came back without data. *)
Definition noData {A} (p : Settled (Response A)) : bool :=
  match p with
  | Rejected _ => true
  | Fulfilled r => match data r with None => true | Some _ => false end
  end.

Section ThisMonth.

(** [new Date(s).getTime()], [None] for an invalid date, and [Date.now()],
    both in milliseconds. *)
Variable dateOf : string -> option Z.
Variable today : Z.

(** [new Date(f.created_at) > new Date(Date.now() - 30*24*60*60*1000)]; a
    comparison with an invalid date is false. *)
Definition createdThisMonth (f : Farm.t) : bool :=
  match dateOf (Farm.created_at f) with
  | Some t => (today - 30 * 24 * 60 * 60 * 1000 <? t)%Z
  | None => false
  end.

(** The count behind "+n this month" on the Total Farms card. *)
Definition newThisMonth (farms : list Farm.t) : nat :=
  List.length (filter createdThisMonth farms).

End ThisMonth.

Section Chronology.

(** The instant a [created_at] string denotes. *)
Variable instant : string -> Z.

Definition newestFirst (l : list Prediction.t) : Prop :=
  StronglySorted
    (fun a b => (instant (Prediction.created_at b)
                 <= instant (Prediction.created_at a))%Z) l.

Definition oldestFirst (l : list Prediction.t) : Prop :=
  StronglySorted
    (fun a b => (instant (Prediction.created_at a)
                 <= instant (Prediction.created_at b))%Z) l.

End Chronology.

End Dashboard.

(** ** IEEE 754 binary64, for checking the exact model on concrete inputs *)

Module Binary64.

Definition prec : Z := 53.
Definition emax : Z := 1024.

Definition add : spec_float -> spec_float -> spec_float := SFadd prec emax.
Definition mul : spec_float -> spec_float -> spec_float := SFmul prec emax.

(** The double [m * 2^e] for a natural [m]. *)
Definition dyadic (m : positive) (e : Z) : spec_float :=
  S754_finite false m e.

(** The rational a finite double stands for. *)
Definition toQ (x : spec_float) : option Q :=
  match x with
  | S754_zero _ => Some 0
  | S754_finite s m e =>
      Some ((if s then - inject_Z (Z.pos m) else inject_Z (Z.pos m))
            * Qpower 2 e)
  | _ => None
  end.

(** [x] is finite and stands for the rational [q]. *)
Definition stands_for (x : spec_float) (q : Q) : bool :=
  match toQ x with
  | Some v => Qeq_bool v q
  | None => false
  end.

(** [Math.random() * scale + offset] in binary64. *)
Definition scaled (r scale offset : spec_float) : spec_float :=
  add (mul r scale) offset.

Definition div : spec_float -> spec_float -> spec_float := SFdiv prec emax.

(** The double of an integer, and of an array length. *)
Definition ofZ (n : Z) : spec_float := binary_normalize prec emax n 0 false.

Definition ofNat (n : nat) : spec_float := ofZ (Z.of_nat n).

(** The double that a decimal literal [n/d] denotes: the quotient of two
    integers, rounded to nearest. *)
Definition decimal (n : Z) (d : positive) : spec_float :=
  div (ofZ n) (ofZ (Z.pos d)).

Definition isFinite (x : spec_float) : bool :=
  match x with
  | S754_zero _ | S754_finite _ _ _ => true
  | _ => false
  end.

(** The rational a double stands for, 0 for what is not finite. *)
Definition value (x : spec_float) : Q :=
  match toQ x with
  | Some q => q
  | None => 0
  end.

(** [x + y] does not round: the operands and the result are finite and the
    result stands for the exact sum. *)
Definition addsExactly (x y : spec_float) : bool :=
  isFinite x && isFinite y && isFinite (add x y)
  && Qeq_bool (value (add x y)) (value x + value y).

(** [x / y] does not round. *)
Definition dividesExactly (x y : spec_float) : bool :=
  isFinite x && isFinite y && isFinite (div x y)
  && negb (Qeq_bool (value y) 0)
  && Qeq_bool (value (div x y)) (value x / value y).

(** The sum of [xs] accumulated from [acc] in list order, each addition
    rounded. *)
Fixpoint accumulate (acc : spec_float) (xs : list spec_float) : spec_float :=
  match xs with
  | [] => acc
  | x :: rest => accumulate (add acc x) rest
  end.

(** No addition of that accumulation rounds. *)
Fixpoint additionsExact (acc : spec_float) (xs : list spec_float) : bool :=
  match xs with
  | [] => isFinite acc
  | x :: rest => addsExactly acc x && additionsExact (add acc x) rest
  end.

(** [x.toFixed(f)] on a double: the digits come from the exact value of
    the double (below 10^21, as for [JsNumber.toFixed]). *)
Definition toFixed (f : nat) (x : spec_float) : string :=
  match x with
  | S754_nan => "NaN"
  | S754_infinity s => if s then "-Infinity" else "Infinity"
  | _ => JsNumber.toFixed f (value x)
  end.

End Binary64.

(** ** The derived statistics of the dashboard in binary64 *)

Module DashboardBinary64.

(** The records as they are fetched, their numbers as doubles. *)
Module Farm.
Record t := mk {
  id : string;
  name : string;
  location : string;
  crop_type : string;
  area_hectares : spec_float;
  created_at : string
}.
End Farm.

Module Prediction.
Record t := mk {
  id : string;
  yield_per_hectare : spec_float;
  confidence_score : spec_float;
  created_at : string;
  farm_id : string
}.
End Prediction.

Definition totalArea (farms : list Farm.t) : spec_float :=
  fold_left (fun sum farm => Binary64.add sum (Farm.area_hectares farm))
    farms (S754_zero false).

Definition avgYield (predictions : list Prediction.t) : spec_float :=
  if (0 <? List.length predictions)%nat
  then Binary64.div
         (fold_left
            (fun sum pred =>
               Binary64.add sum (Prediction.yield_per_hectare pred))
            predictions (S754_zero false))
         (Binary64.ofNat (List.length predictions))
  else S754_zero false.

(** The texts of the Total Area and Avg Yield cards. *)
Definition totalAreaText (farms : list Farm.t) : string :=
  Binary64.toFixed 1 (totalArea farms) ++ " ha".

Definition avgYieldText (predictions : list Prediction.t) : string :=
  Binary64.toFixed 1 (avgYield predictions) ++ " t/ha".

(** *** Vocabulary of the properties *)

Definition areas (farms : list Farm.t) : list spec_float :=
  map Farm.area_hectares farms.

Definition yields (predictions : list Prediction.t) : list spec_float :=
  map Prediction.yield_per_hectare predictions.

(** No addition of the total rounds. *)
Definition noRounding (farms : list Farm.t) : bool :=
  Binary64.additionsExact (S754_zero false) (areas farms).

(** Neither an addition nor the division of the average rounds. *)
Definition meanExact (predictions : list Prediction.t) : bool :=
  Binary64.additionsExact (S754_zero false) (yields predictions)
  && match predictions with
     | [] => true
     | _ =>
         Binary64.dividesExactly
           (Binary64.accumulate (S754_zero false) (yields predictions))
           (Binary64.ofNat (List.length predictions))
     end.

End DashboardBinary64.

(** ** Sample inputs *)

Module Samples.

Definition filledForm : PredictionForm.FormData :=
  PredictionForm.mkFormData "Wanjiru" "+254 123 456 789" "Eldoret" "maize"
    "" "6.5" "" "".

(** Every required field holds a single space. *)
Definition blankForm : PredictionForm.FormData :=
  PredictionForm.mkFormData " " " " " " " " "" "" "" "".

(** Everything filled in but the crop. *)
Definition noCropForm : PredictionForm.FormData :=
  PredictionForm.mkFormData "Wanjiru" "+254 123 456 789" "Eldoret" ""
    "1.5" "6.5" "22.0" "2.1".

Definition worldWith (fd : PredictionForm.FormData) : PredictionForm.World :=
  PredictionForm.mkWorld fd false 0 [] 0 [].

(** Every draw is 1/2. *)
Definition halfDraws : nat -> Q := fun _ => 1 # 2.

(** Every draw is 1023/1024 = 1 - 2^-10. *)
Definition highDraws : nat -> Q := fun _ => 1023 # 1024.

Definition northField : Dashboard.Farm.t :=
  Dashboard.Farm.mk "f1" "North field" "Eldoret" "maize" (5 # 2)
    "2024-03-02T08:00:00Z".

Definition riverPlot : Dashboard.Farm.t :=
  Dashboard.Farm.mk "f2" "River plot" "Nakuru" "beans" (3 # 2)
    "2024-03-01T08:00:00Z".

Definition predictionOn (day : string) (y c : Q) : Dashboard.Prediction.t :=
  Dashboard.Prediction.mk ("p" ++ day) y c
    ("2024-03-" ++ day ++ "T10:00:00Z") "f1".

(** Nine predictions, the newest first. *)
Definition ninePredictions : list Dashboard.Prediction.t :=
  [predictionOn "09" (9 # 2) 91; predictionOn "08" 4 88;
   predictionOn "07" (7 # 2) 85; predictionOn "06" 3 84;
   predictionOn "05" (5 # 2) 90; predictionOn "04" 2 83;
   predictionOn "03" (9 # 2) 95; predictionOn "02" 4 81;
   predictionOn "01" 3 80].

Definition someProfile : Dashboard.Profile.t :=
  Dashboard.Profile.mk "Wanjiru" None None "premium".

(** The digits of a timestamp string read as one number, which orders
    timestamps written in one format and zone by time. *)
Definition digitsOf (s : string) : Z :=
  fold_left (fun acc c =>
               if JsNumber.isDigit c
               then (10 * acc + Z.of_nat (nat_of_ascii c) - 48)%Z
               else acc)
    (list_ascii_of_string s) 0%Z.

Definition plainDate (s : string) : string := substring 0 10 s.

(** The farms query comes back without data, the other two with data. *)
Definition farmsWithoutData : Dashboard.Answers :=
  Dashboard.mkAnswers
    (Dashboard.Fulfilled (Dashboard.mkResponse None (Some "permission denied")))
    (Dashboard.Fulfilled (Dashboard.mkResponse (Some ninePredictions) None))
    (Dashboard.Fulfilled (Dashboard.mkResponse (Some someProfile) None)).

(** The predictions promise rejects, the other two resolve with data. *)
Definition predictionsRejected : Dashboard.Answers :=
  Dashboard.mkAnswers
    (Dashboard.Fulfilled
       (Dashboard.mkResponse (Some [northField; riverPlot]) None))
    (Dashboard.Rejected "Failed to fetch")
    (Dashboard.Fulfilled (Dashboard.mkResponse (Some someProfile) None)).

Definition allAnswered : Dashboard.Answers :=
  Dashboard.mkAnswers
    (Dashboard.Fulfilled
       (Dashboard.mkResponse (Some [northField; riverPlot]) None))
    (Dashboard.Fulfilled (Dashboard.mkResponse (Some ninePredictions) None))
    (Dashboard.Fulfilled (Dashboard.mkResponse (Some someProfile) None)).

(** A form filled in and submitted bit by bit: too early, then in full,
    once more while the first result is pending, and at last with the crop
    removed. *)
Definition busyDay : list PredictionForm.Action :=
  [PredictionForm.Change PredictionForm.Name "Wanjiru";
   PredictionForm.Submit;
   PredictionForm.Change PredictionForm.Phone "+254 123 456 789";
   PredictionForm.Change PredictionForm.Location "Eldoret";
   PredictionForm.Change PredictionForm.Crop "maize";
   PredictionForm.Submit;
   PredictionForm.Elapse 500;
   PredictionForm.Change PredictionForm.Area "1.5";
   PredictionForm.Submit;
   PredictionForm.Elapse 1500;
   PredictionForm.Change PredictionForm.Crop "";
   PredictionForm.Submit;
   PredictionForm.Elapse 2000].

(** The two creation dates of the sample farms in milliseconds since the
    epoch; any other string is no date. *)
Definition readDate (s : string) : option Z :=
  if (s =? "2024-03-02T08:00:00Z")%string then Some 1709366400000%Z
  else if (s =? "2024-03-01T08:00:00Z")%string then Some 1709280000000%Z
  else None.

Definition unknownFarmPrediction : Dashboard.Prediction.t :=
  Dashboard.Prediction.mk "p0" 3 85 "2024-03-10T10:00:00Z" "f9".

(** Farms and predictions with decimal numbers, as doubles. *)
Definition farmOf (n : Z) (d : positive) : DashboardBinary64.Farm.t :=
  DashboardBinary64.Farm.mk "f" "Plot" "Eldoret" "maize"
    (Binary64.decimal n d) "2024-03-02T08:00:00Z".

Definition predictionOf (n : Z) (d : positive)
  : DashboardBinary64.Prediction.t :=
  DashboardBinary64.Prediction.mk "p" (Binary64.decimal n d)
    (Binary64.ofZ 85) "2024-03-02T10:00:00Z" "f".

(** Areas of 0.1, 0.2 and 0.3 hectares. *)
Definition tenths : list DashboardBinary64.Farm.t :=
  [farmOf 1 10; farmOf 2 10; farmOf 3 10].

(** Areas of 2.5 and 1.5 hectares. *)
Definition halves : list DashboardBinary64.Farm.t :=
  [farmOf 25 10; farmOf 15 10].

(** Three yields of 0.1. *)
Definition threeTenths : list DashboardBinary64.Prediction.t :=
  [predictionOf 1 10; predictionOf 1 10; predictionOf 1 10].

(** Yields of 4.5 and 3.5. *)
Definition twoYields : list DashboardBinary64.Prediction.t :=
  [predictionOf 45 10; predictionOf 35 10].

End Samples.

(** * Properties *)

(** ** Facts about [toFixed] and [parseDecimal] *)

Module JsNumberFacts.
Import JsNumber.

Example toFixed_4 : toFixed 1 (4 # 1) = "4.0".
Proof. reflexivity. Qed.

Example toFixed_tie_up : toFixed 2 (1 # 8) = "0.13".
Proof. reflexivity. Qed.

Example toFixed_small : toFixed 2 (1 # 1024) = "0.00".
Proof. reflexivity. Qed.

Example toFixed_negative : toFixed 1 (- 1 # 4) = "-0.3".
Proof. reflexivity. Qed.

Example toFixed_integer : toFixed 0 (179 # 2) = "90".
Proof. reflexivity. Qed.

Example parseDecimal_5 : parseDecimal "5.00" = Some (500 # 100).
Proof. reflexivity. Qed.

Example parseDecimal_reject : parseDecimal "4.x0" = None.
Proof. reflexivity. Qed.



(** *** Strings of digits *)

Lemma allDigits_app (a b : string) :
  allDigits (a ++ b) = allDigits a && allDigits b.
Proof.
  induction a as [| c a IH]; simpl; [reflexivity |].
  rewrite IH. apply andb_assoc.
Qed.

Lemma allDigits_zeros (k : nat) : allDigits (zeros k) = true.
Proof. induction k; simpl; auto. Qed.

Lemma allDigits_string_of_uint (u : Decimal.uint) :
  allDigits (NilEmpty.string_of_uint u) = true.
Proof. induction u; simpl; auto. Qed.

Lemma allDigits_digits (n : Z) : allDigits (digits n) = true.
Proof. apply allDigits_string_of_uint. Qed.

Lemma allDigits_substring (s : string) :
  allDigits s = true -> forall i j, allDigits (substring i j s) = true.
Proof.
  induction s as [| c s IH]; intros H i j.
  - destruct i, j; reflexivity.
  - simpl in H. apply andb_prop in H as [Hc Hs].
    destruct i; simpl.
    + destruct j; simpl; [reflexivity |].
      rewrite Hc. simpl. apply IH; assumption.
    + apply IH; assumption.
Qed.

Lemma length_app (a b : string) :
  String.length (a ++ b) = (String.length a + String.length b)%nat.
Proof. induction a; simpl; auto. Qed.

Lemma length_zeros (k : nat) : String.length (zeros k) = k.
Proof. induction k; simpl; auto. Qed.

Lemma length_substring (s : string) :
  forall i j, (i + j <= String.length s)%nat ->
  String.length (substring i j s) = j.
Proof.
  induction s as [| c s IH]; intros i j H; simpl in H.
  - assert (i = 0%nat) by lia. assert (j = 0%nat) by lia. subst. reflexivity.
  - destruct i; simpl.
    + destruct j; simpl; [reflexivity |]. f_equal. apply IH. lia.
    + apply IH. lia.
Qed.

Lemma substring_split (s : string) :
  forall i, (i <= String.length s)%nat ->
  substring 0 i s ++ substring i (String.length s - i) s = s.
Proof.
  induction s as [| c s IH]; intros i H; simpl in H.
  - assert (i = 0%nat) by lia. subst. reflexivity.
  - destruct i.
    + simpl. f_equal. clear. induction s; simpl; f_equal; auto.
    + simpl. f_equal. apply IH. lia.
Qed.

Lemma nonEmpty_length (s : string) :
  (0 < String.length s)%nat -> nonEmpty s = true.
Proof. destruct s; simpl; [lia | reflexivity]. Qed.

Lemma isDigit_not_point (c : ascii) :
  isDigit c = true -> Ascii.eqb c "." = false.
Proof.
  destruct c as [[] [] [] [] [] [] [] []]; simpl; intros H;
    first [discriminate H | reflexivity].
Qed.

Lemma splitPoint_digits (a : string) :
  allDigits a = true -> splitPoint a = (a, None).
Proof.
  induction a as [| c a IH]; simpl; [reflexivity |].
  intros H. apply andb_prop in H as [Hc Ha].
  rewrite (isDigit_not_point _ Hc), (IH Ha). reflexivity.
Qed.

Lemma splitPoint_point (a b : string) :
  allDigits a = true -> splitPoint (a ++ String "." b) = (a, Some b).
Proof.
  induction a as [| c a IH]; simpl; [reflexivity |].
  intros H. apply andb_prop in H as [Hc Ha].
  rewrite (isDigit_not_point _ Hc), (IH Ha). reflexivity.
Qed.

(** *** Reading back what [toFixed] wrote *)




Lemma padded_spec (f : nat) (n : Z) :
  exists k, padded f n = zeros k ++ digits n
            /\ (f + 1 <= String.length (padded f n))%nat.
Proof.
  unfold padded. destruct (Nat.leb_spec (String.length (digits n)) f).
  - exists (f + 1 - String.length (digits n))%nat. split; [reflexivity |].
    rewrite length_app, length_zeros. lia.
  - exists 0%nat. split; [reflexivity | lia].
Qed.

Lemma allDigits_padded (f : nat) (n : Z) : allDigits (padded f n) = true.
Proof.
  destruct (padded_spec f n) as [k [-> _]].
  rewrite allDigits_app, allDigits_zeros, allDigits_digits. reflexivity.
Qed.

Lemma toFixed_nonneg (f : nat) (x : Q) :
  0 <= x -> toFixed f x = placePoint f (padded f (roundScaled f x)).
Proof.
  intros Hx. unfold toFixed. destruct (Qlt_le_dec x 0) as [Hneg |].
  - exfalso. apply (Qlt_not_le _ _ Hneg). assumption.
  - reflexivity.
Qed.

(** For [f > 0] the result is [a.b] where [a ++ b] is the padded digit
    string, [b] has [f] digits and [a] at least one. *)
Lemma placePoint_shape (f : nat) (m : string) :
  (S f + 1 <= String.length m)%nat ->
  exists a b, placePoint (S f) m = a ++ String "." b
              /\ a ++ b = m
              /\ String.length b = S f
              /\ (0 < String.length a)%nat.
Proof.
  intros Hlen. unfold placePoint.
  set (k := String.length m) in *.
  exists (substring 0 (k - S f) m), (substring (k - S f) (S f) m).
  split; [reflexivity |]. split; [| split].
  - pose proof (substring_split m (k - S f)%nat) as H. fold k in H.
    replace (k - (k - S f))%nat with (S f) in H by lia.
    apply H. lia.
  - apply length_substring. fold k. lia.
  - rewrite length_substring; fold k; lia.
Qed.




(** [x.toFixed(f)] has exactly [f] digits after the point, and no point at
    all when [f = 0]. *)
Lemma isFixedDecimal_toFixed (f : nat) (x : Q) :
  0 <= x -> isFixedDecimal f (toFixed f x) = true.
Proof.
  intros Hx. rewrite (toFixed_nonneg f x Hx).
  set (n := roundScaled f x).
  destruct (padded_spec f n) as [k [Hpad Hlen]].
  pose proof (allDigits_padded f n) as Hdig.
  unfold isFixedDecimal. destruct f as [| f].
  - unfold placePoint. rewrite (splitPoint_digits _ Hdig), Hdig.
    rewrite nonEmpty_length by lia. reflexivity.
  - destruct (placePoint_shape f (padded (S f) n)) as [a [b [E [Hab [Hb Ha]]]]];
      [lia |].
    rewrite E. rewrite <- Hab in Hdig. rewrite allDigits_app in Hdig.
    apply andb_prop in Hdig as [Hda Hdb].
    rewrite (splitPoint_point a b Hda), Hda, Hdb, Hb.
    rewrite nonEmpty_length by assumption.
    rewrite Nat.eqb_refl. reflexivity.
Qed.

(** [toFixed] depends on the number, not on the fraction that writes it. *)
Lemma roundScaled_Qeq (f : nat) (x y : Q) :
  x == y -> roundScaled f x = roundScaled f y.
Proof.
  destruct x as [p1 q1], y as [p2 q2]. unfold Qeq, roundScaled.
  cbn [Qnum Qden]. intros E.
  set (t := (10 ^ Z.of_nat f)%Z).
  rewrite <- (Z.div_mul_cancel_r (2 * p1 * t + Z.pos q1) (2 * Z.pos q1)
                (Z.pos q2)) by lia.
  rewrite <- (Z.div_mul_cancel_r (2 * p2 * t + Z.pos q2) (2 * Z.pos q2)
                (Z.pos q1)) by lia.
  f_equal; [| ring].
  replace ((2 * p1 * t + Z.pos q1) * Z.pos q2)%Z
    with (2 * (p1 * Z.pos q2) * t + Z.pos q1 * Z.pos q2)%Z by ring.
  rewrite E. ring.
Qed.

Lemma toFixed_Qeq (f : nat) (x y : Q) :
  x == y -> toFixed f x = toFixed f y.
Proof.
  intros E. unfold toFixed.
  destruct (Qlt_le_dec x 0) as [Hx | Hx], (Qlt_le_dec y 0) as [Hy | Hy].
  - rewrite (roundScaled_Qeq f (- x) (- y)) by (rewrite E; reflexivity).
    reflexivity.
  - exfalso. rewrite E in Hx. apply (Qlt_not_le _ _ Hx Hy).
  - exfalso. rewrite E in Hx. apply (Qlt_not_le _ _ Hy Hx).
  - rewrite (roundScaled_Qeq f x y E). reflexivity.
Qed.


End JsNumberFacts.

(** ** The prediction intake form *)

Module PredictionFormFacts.
Import PredictionForm.
Local Open Scope list_scope.
Local Open Scope form_scope.

Lemma falsy_iff (s : string) : falsy s = true <-> s = "".
Proof. unfold falsy. apply String.eqb_eq. Qed.

Lemma falsy_filled (s : string) : s <> "" -> falsy s = false.
Proof. unfold falsy. apply String.eqb_neq. Qed.

Lemma validation_passes (fd : FormData) :
  requiredFilled fd ->
  falsy (name fd) || falsy (phone fd) || falsy (location fd)
  || falsy (crop fd) = false.
Proof.
  intros (Hn & Hp & Hl & Hc).
  rewrite !falsy_filled by assumption. reflexivity.
Qed.

Lemma validation_fails (fd : FormData) :
  requiredMissing fd ->
  falsy (name fd) || falsy (phone fd) || falsy (location fd)
  || falsy (crop fd) = true.
Proof.
  intros [H | [H | [H | H]]]; rewrite H; simpl;
    rewrite ?orb_true_r; reflexivity.
Qed.

Lemma predictionsDelivered_app (t1 t2 : list Event) :
  predictionsDelivered (t1 ++ t2)
  = predictionsDelivered t1 ++ predictionsDelivered t2.
Proof.
  induction t1 as [| e t1 IH]; simpl; [reflexivity |].
  destruct e; simpl; rewrite IH; reflexivity.
Qed.

Lemma toastsShown_app (t1 t2 : list Event) :
  toastsShown (t1 ++ t2) = toastsShown t1 ++ toastsShown t2.
Proof.
  induction t1 as [| e t1 IH]; simpl; [reflexivity |].
  destruct e; simpl; rewrite IH; reflexivity.
Qed.

Section WithRandom.

Variable random : nat -> Q.

(** A submission that passes validation only sets the timer. *)
Lemma handleSubmit_filled (w : World) :
  requiredFilled (formData w) ->
  exec (handleSubmit) w
  = mkWorld (formData w) true (now w)
      (timers w ++ [mkTimer (now w + 2000) (SimulatedApiCall (formData w))])
      (randomCalls w) (trace w ++ [PreventDefault]).
Proof.
  intros H. unfold exec, handleSubmit, bind, emit, setIsLoading, getFormData.
  cbn [formData isLoading now timers randomCalls trace fst snd].
  rewrite (validation_passes _ H). reflexivity.
Qed.

(** A submission that fails validation shows the notice and stops. *)
Lemma handleSubmit_missing (w : World) :
  requiredMissing (formData w) ->
  exec (handleSubmit) w
  = mkWorld (formData w) false (now w) (timers w) (randomCalls w)
      (trace w ++ [PreventDefault; ToastShown missingInformation]).
Proof.
  intros H. unfold exec, handleSubmit, bind, emit, setIsLoading, getFormData.
  cbn [formData isLoading now timers randomCalls trace fst snd].
  rewrite (validation_fails _ H).
  unfold toast, emit, setIsLoading.
  cbn [formData isLoading now timers randomCalls trace fst snd].
  rewrite <- app_assoc. reflexivity.
Qed.

(** The result object built by the callback that runs when [k] draws have
    been made before. *)
Lemma runCallback_world (fd : FormData) (w : World) :
  exec (runCallback random (SimulatedApiCall fd)) w
  = mkWorld (formData w) false (now w) (timers w) (4 + randomCalls w)
      (trace w
       ++ [OnPrediction
             (mockResult (random (randomCalls w))
                (random (1 + randomCalls w)) (random (2 + randomCalls w))
                (random (3 + randomCalls w)) fd);
           ToastShown predictionComplete]).
Proof.
  unfold exec, runCallback, bind, mathRandom, onPrediction, toast, emit,
    setIsLoading.
  cbn [formData isLoading now timers randomCalls trace fst snd plus].
  rewrite <- app_assoc. reflexivity.
Qed.

Lemma exec_bind {A B} (c : M A) (k : A -> M B) (w : World) :
  exec (bind c k) w = exec (k (fst (c w))) (exec c w).
Proof. unfold exec, bind. destruct (c w). reflexivity. Qed.

Lemma callbackEvents_app (k : nat) (l1 l2 : list Callback) :
  callbackEvents random k (l1 ++ l2)
  = callbackEvents random k l1
    ++ callbackEvents random (4 * List.length l1 + k) l2.
Proof.
  revert k. induction l1 as [| [fd] l1 IH]; intros k.
  - reflexivity.
  - cbn [app callbackEvents List.length]. rewrite IH.
    replace (4 * List.length l1 + (4 + k))%nat
      with (4 * S (List.length l1) + k)%nat by lia.
    reflexivity.
Qed.

(** Running callbacks appends their events, whatever the state was. *)
Lemma runCallbacks_world (cbs : list Callback) (w : World) :
  exec (runCallbacks random cbs) w
  = mkWorld (formData w)
      (match cbs with [] => isLoading w | _ => false end)
      (now w) (timers w) (4 * List.length cbs + randomCalls w)
      (trace w ++ callbackEvents random (randomCalls w) cbs).
Proof.
  revert w. induction cbs as [| [fd] cbs IH]; intros w.
  - unfold exec. simpl. rewrite app_nil_r. destruct w; reflexivity.
  - cbn [runCallbacks]. rewrite exec_bind, IH, runCallback_world.
    cbn [formData isLoading now timers randomCalls trace callbackEvents
         List.length].
    rewrite <- app_assoc. cbn [app].
    f_equal; [destruct cbs; reflexivity | lia].
Qed.

Lemma advance_world (ms : nat) (w : World) :
  exec (advance random ms) w
  = mkWorld (formData w)
      (match readyCallbacks ms w with [] => isLoading w | _ => false end)
      (now w + ms)
      (snd (partition (fun tm => (due tm <=? now w + ms)%nat) (timers w)))
      (4 * List.length (readyCallbacks ms w) + randomCalls w)
      (trace w ++ callbackEvents random (randomCalls w) (readyCallbacks ms w)).
Proof.
  unfold exec at 1, advance, readyCallbacks.
  destruct (partition _ (timers w)) as [ready later].
  pose proof (runCallbacks_world (map callback ready)
    (mkWorld (formData w) (isLoading w) (now w + ms) later (randomCalls w)
       (trace w))) as H.
  unfold exec in H. rewrite H. reflexivity.
Qed.

Lemma partition_snoc {A} (f : A -> bool) (l : list A) (x : A) :
  f x = true ->
  partition f (l ++ [x])
  = (fst (partition f l) ++ [x], snd (partition f l)).
Proof.
  intros Hx. induction l as [| y l IH]; simpl.
  - rewrite Hx. reflexivity.
  - rewrite IH. destruct (partition f l) as [a b].
    destruct (f y); reflexivity.
Qed.

(** The trace of a whole submission with the required fields filled: the
    callbacks of timers that were pending run first, then the one of this
    submission. *)
Lemma submitAndWait_trace (w : World) :
  requiredFilled (formData w) ->
  trace (exec (submitAndWait random) w)
  = trace w ++ [PreventDefault]
    ++ callbackEvents random (randomCalls w) (readyCallbacks 2000 w)
    ++ [OnPrediction
          (mockResult
             (random (4 * List.length (readyCallbacks 2000 w) + randomCalls w))
             (random (1 + (4 * List.length (readyCallbacks 2000 w)
                           + randomCalls w)))
             (random (2 + (4 * List.length (readyCallbacks 2000 w)
                           + randomCalls w)))
             (random (3 + (4 * List.length (readyCallbacks 2000 w)
                           + randomCalls w)))
             (formData w));
        ToastShown predictionComplete].
Proof.
  intros Hfilled. unfold submitAndWait.
  rewrite exec_bind, (handleSubmit_filled w Hfilled), advance_world.
  unfold readyCallbacks.
  cbn [formData isLoading now timers randomCalls trace].
  rewrite partition_snoc by (cbn [due]; apply Nat.leb_refl).
  cbn [fst]. rewrite map_app, callbackEvents_app. cbn [map callback].
  rewrite <- !app_assoc. reflexivity.
Qed.


End WithRandom.


(** *** The claims about the form *)


(** C2.  A submission with one of name, phone, location, crop empty shows
    the destructive "Missing Information" notice and stops: the field record
    is unchanged, no timer is set, and however long one waits afterwards
    [onPrediction] receives nothing that it would not have received
    without the submission. *)
Theorem rejected_submission_aborts (w : World) :
  requiredMissing (formData w) ->
  formData (exec handleSubmit w) = formData w
  /\ isLoading (exec handleSubmit w) = false
  /\ timers (exec handleSubmit w) = timers w
  /\ trace (exec handleSubmit w)
     = trace w ++ [PreventDefault; ToastShown missingInformation]
  /\ variant missingInformation = Some "destructive"%string
  /\ forall (random : nat -> Q) (ms : nat),
       predictionsDelivered
         (trace (exec (handleSubmit ;; advance random ms) w))
       = predictionsDelivered (trace (exec (advance random ms) w))
       /\ formData (exec (handleSubmit ;; advance random ms) w) = formData w.
Proof.
  intros Hmissing.
  pose proof (handleSubmit_missing w Hmissing) as Hw.
  rewrite Hw. cbn [formData isLoading timers trace].
  repeat split.
  - rewrite exec_bind, Hw, !advance_world. unfold readyCallbacks.
    cbn [formData isLoading now timers randomCalls trace].
    rewrite !predictionsDelivered_app. cbn [predictionsDelivered].
    rewrite app_nil_r. reflexivity.
  - rewrite exec_bind, Hw, advance_world. reflexivity.
Qed.

(** C9.  The result object of a successful submission carries its four
    readings as strings: yield with exactly two digits after the point,
    temperature with one, rainfall and confidence with none; and its
    [farmData] is the submitted field record itself, optional fields
    included, whatever they hold. *)
Theorem result_carries_decimal_strings_and_form (random : nat -> Q) :
  unitDraws random ->
  forall w : World,
    requiredFilled (formData w) ->
    exists result,
      predictionsDelivered (trace (exec (submitAndWait random) w))
      = predictionsDelivered (trace (exec (advance random 2000) w))
        ++ [result]
      /\ JsNumber.isFixedDecimal 2 (yield result) = true
      /\ JsNumber.isFixedDecimal 1 (temperature (weather result)) = true
      /\ JsNumber.isFixedDecimal 0 (rainfall (weather result)) = true
      /\ JsNumber.isFixedDecimal 0 (confidence result) = true
      /\ farmData result = formData w.
Proof.
  intros Hdraws w Hfilled.
  rewrite (submitAndWait_trace random w Hfilled), advance_world.
  cbn [trace]. rewrite !predictionsDelivered_app.
  cbn [predictionsDelivered app].
  eexists. split; [rewrite app_assoc; reflexivity |].
  unfold mockResult.
  cbn [yield weather temperature rainfall confidence farmData].
  repeat split; apply JsNumberFacts.isFixedDecimal_toFixed;
    match goal with
    | |- 0 <= random ?k * _ + _ =>
        destruct (Hdraws k) as [L _]; lra
    end.
Qed.

(** C10.  Validation rejects a field exactly when it is the empty string.
    When name, phone, location and crop are all different from the empty
    string (blanks count as content), the submission shows no notice, sets
    the timer, and the callback receives its result. *)
Theorem nonempty_fields_pass_validation (random : nat -> Q) (w : World) :
  requiredFilled (formData w) ->
  (forall s : string, falsy s = true <-> s = ""%string)
  /\ toastsShown (trace (exec handleSubmit w)) = toastsShown (trace w)
  /\ timers (exec handleSubmit w)
     = timers w ++ [mkTimer (now w + 2000) (SimulatedApiCall (formData w))]
  /\ exists result,
       predictionsDelivered (trace (exec (submitAndWait random) w))
       = predictionsDelivered (trace (exec (advance random 2000) w))
         ++ [result]
       /\ farmData result = formData w.
Proof.
  intros Hfilled. split; [exact falsy_iff |].
  rewrite (handleSubmit_filled w Hfilled). cbn [trace timers].
  split; [| split].
  - rewrite toastsShown_app. cbn [toastsShown]. apply app_nil_r.
  - reflexivity.
  - rewrite (submitAndWait_trace random w Hfilled), advance_world.
    cbn [trace]. rewrite !predictionsDelivered_app.
    cbn [predictionsDelivered app].
    eexists. split; [rewrite app_assoc; reflexivity | reflexivity].
Qed.

(** *** Concrete runs *)




Example half_draws_result :
  predictionsDelivered
    (trace (exec (submitAndWait Samples.halfDraws)
              (Samples.worldWith Samples.filledForm)))
  = [mkMockResult "3.50" (mkWeather "23.0" "60") "90" Samples.filledForm].
Proof. vm_compute. reflexivity. Qed.

(** Two seconds after a rejected submission nothing has been delivered. *)
Example rejected_run :
  exec (handleSubmit ;; advance Samples.halfDraws 2000)
    (Samples.worldWith Samples.noCropForm)
  = mkWorld Samples.noCropForm false 2000 [] 0
      [PreventDefault; ToastShown missingInformation].
Proof. reflexivity. Qed.

(** [handleSubmit] called again one second after the first call (the
    handler itself does not look at [isLoading]): each call gets its own
    result, in the order of the calls. *)
Example two_submissions :
  map farmData
    (predictionsDelivered
       (trace (exec (handleSubmit ;; advance Samples.halfDraws 1000 ;;
                     handleInputChange Area "2.0" ;;
                     handleSubmit ;; advance Samples.halfDraws 2000)
                 (Samples.worldWith Samples.filledForm))))
  = [Samples.filledForm; withField Area "2.0" Samples.filledForm].
Proof. vm_compute. reflexivity. Qed.



Lemma rejected_submission_witness :
  requiredMissing (formData (Samples.worldWith Samples.noCropForm))
  /\ formData (exec handleSubmit (Samples.worldWith Samples.noCropForm))
     = Samples.noCropForm
  /\ trace (exec handleSubmit (Samples.worldWith Samples.noCropForm))
     = [PreventDefault; ToastShown missingInformation].
Proof.
  assert (Hm : requiredMissing
                 (formData (Samples.worldWith Samples.noCropForm))).
  { unfold requiredMissing. simpl. right. right. right. reflexivity. }
  destruct (rejected_submission_aborts
              (Samples.worldWith Samples.noCropForm) Hm)
    as (Hform & _ & _ & Htrace & _).
  split; [exact Hm |]. split; [exact Hform | exact Htrace].
Defined.

Lemma result_carries_decimal_strings_witness :
  unitDraws Samples.highDraws
  /\ requiredFilled (formData (Samples.worldWith Samples.filledForm))
  /\ exists result,
       predictionsDelivered
         (trace (exec (submitAndWait Samples.highDraws)
                   (Samples.worldWith Samples.filledForm)))
       = predictionsDelivered
           (trace (exec (advance Samples.highDraws 2000)
                     (Samples.worldWith Samples.filledForm)))
         ++ [result]
       /\ JsNumber.isFixedDecimal 2 (yield result) = true
       /\ JsNumber.isFixedDecimal 1 (temperature (weather result)) = true
       /\ JsNumber.isFixedDecimal 0 (rainfall (weather result)) = true
       /\ JsNumber.isFixedDecimal 0 (confidence result) = true
       /\ farmData result
          = formData (Samples.worldWith Samples.filledForm).
Proof.
  assert (Hd : unitDraws Samples.highDraws).
  { intros k. unfold Samples.highDraws, Qle, Qlt. simpl. lia. }
  assert (Hf : requiredFilled
                 (formData (Samples.worldWith Samples.filledForm))).
  { unfold requiredFilled. simpl. repeat split; discriminate. }
  split; [exact Hd |]. split; [exact Hf |].
  exact (result_carries_decimal_strings_and_form Samples.highDraws Hd
           (Samples.worldWith Samples.filledForm) Hf).
Defined.

Lemma blank_fields_pass_validation_witness :
  requiredFilled (formData (Samples.worldWith Samples.blankForm))
  /\ timers (exec handleSubmit (Samples.worldWith Samples.blankForm))
     = [mkTimer 2000 (SimulatedApiCall Samples.blankForm)]
  /\ exists result,
       predictionsDelivered
         (trace (exec (submitAndWait Samples.halfDraws)
                   (Samples.worldWith Samples.blankForm)))
       = predictionsDelivered
           (trace (exec (advance Samples.halfDraws 2000)
                     (Samples.worldWith Samples.blankForm)))
         ++ [result]
       /\ farmData result = formData (Samples.worldWith Samples.blankForm).
Proof.
  assert (Hf : requiredFilled
                 (formData (Samples.worldWith Samples.blankForm))).
  { unfold requiredFilled. simpl. repeat split; discriminate. }
  destruct (nonempty_fields_pass_validation Samples.halfDraws
              (Samples.worldWith Samples.blankForm) Hf)
    as (_ & _ & Htimers & Hresult).
  split; [exact Hf |]. split; [exact Htimers | exact Hresult].
Defined.

End PredictionFormFacts.

(** ** The dashboard *)

Module DashboardFacts.
Import Dashboard.
Local Open Scope list_scope.

(** *** Lists in order *)

Section Ordered.

Context {A : Type}.

Lemma StronglySorted_firstn (R : A -> A -> Prop) (n : nat) (l : list A) :
  StronglySorted R l -> StronglySorted R (firstn n l).
Proof.
  intros H. revert n. induction H as [| x l Hl IH Hx]; intros n.
  - rewrite firstn_nil. constructor.
  - destruct n as [| n]; simpl; constructor.
    + apply IH.
    + rewrite Forall_forall in *. intros y Hy.
      apply Hx. revert Hy. clear.
      revert n. induction l as [| z l IHl]; intros [| n] Hy;
        simpl in *; try contradiction.
      destruct Hy as [-> | Hy]; [left; reflexivity | right; eauto].
Qed.

Lemma StronglySorted_snoc (R : A -> A -> Prop) (l : list A) (x : A) :
  StronglySorted R l -> Forall (fun y => R y x) l ->
  StronglySorted R (l ++ [x]).
Proof.
  intros H. induction H as [| z l Hl IH Hz]; intros Hx; simpl.
  - constructor; constructor.
  - inversion Hx as [| ? ? Hzx Hlx]; subst.
    constructor; [apply IH; assumption |].
    apply Forall_app. split; [assumption | constructor; auto].
Qed.

Lemma StronglySorted_rev (R : A -> A -> Prop) (l : list A) :
  StronglySorted R l -> StronglySorted (fun a b => R b a) (rev l).
Proof.
  intros H. induction H as [| x l Hl IH Hx]; simpl.
  - constructor.
  - apply StronglySorted_snoc; [assumption |].
    apply Forall_rev. assumption.
Qed.

(** In a sorted list everything kept by [firstn] comes before everything
    left out. *)
Lemma StronglySorted_split (R : A -> A -> Prop) (n : nat) (l : list A) :
  StronglySorted R l ->
  forall x y, In x (firstn n l) -> In y (skipn n l) -> R x y.
Proof.
  intros H. revert n. induction H as [| z l Hl IH Hz]; intros n x y Hx Hy.
  - rewrite firstn_nil in Hx. contradiction.
  - destruct n as [| n]; simpl in *; [contradiction |].
    destruct Hx as [<- | Hx].
    + rewrite Forall_forall in Hz. apply Hz.
      rewrite <- (firstn_skipn n l). apply in_or_app. right. assumption.
    + eapply IH; eassumption.
Qed.

End Ordered.

(** *** The derived values *)

Lemma fold_left_sum {A : Type} (f : A -> Q) (l : list A) (a : Q) :
  fold_left (fun acc x => acc + f x) l a == a + sum (map f l).
Proof.
  revert a. induction l as [| x l IH]; intros a; simpl.
  - ring.
  - rewrite IH. ring.
Qed.

Lemma batches_app (t1 t2 : list Event) :
  batches (t1 ++ t2) = batches t1 ++ batches t2.
Proof.
  induction t1 as [| e t1 IH]; simpl; [reflexivity |].
  destruct e; simpl; rewrite IH; reflexivity.
Qed.

Lemma consoleErrors_app (t1 t2 : list Event) :
  consoleErrors (t1 ++ t2) = consoleErrors t1 ++ consoleErrors t2.
Proof.
  induction t1 as [| e t1 IH]; simpl; [reflexivity |].
  destruct e; simpl; rewrite IH; reflexivity.
Qed.

(** In exact arithmetic the total area is the sum of the [area_hectares]
    of the farms, in whatever order, and 0 when there is no farm. *)
Theorem totalArea_is_sum (farms : list Farm.t) :
  totalArea farms == sum (map Farm.area_hectares farms)
  /\ totalArea [] = 0.
Proof.
  split; [| reflexivity].
  unfold totalArea. rewrite fold_left_sum. ring.
Qed.

(** In exact arithmetic the average yield is the arithmetic mean of the
    [yield_per_hectare] values, their sum divided by their number, and 0
    when there is no prediction. *)
Theorem avgYield_is_mean (predictions : list Prediction.t) :
  avgYield predictions == mean (map Prediction.yield_per_hectare predictions)
  /\ (forall p ps,
        avgYield (p :: ps)
        == sum (map Prediction.yield_per_hectare (p :: ps))
           / inject_Z (Z.of_nat (List.length (p :: ps))))
  /\ avgYield [] = 0.
Proof.
  assert (Hne : forall p ps,
            avgYield (p :: ps)
            == sum (map Prediction.yield_per_hectare (p :: ps))
               / inject_Z (Z.of_nat (List.length (p :: ps)))).
  { intros p ps. unfold avgYield.
    change (0 <? List.length (p :: ps))%nat with true. cbv iota.
    rewrite fold_left_sum. rewrite Qplus_0_l. reflexivity. }
  split; [| split].
  - destruct predictions as [| p ps]; [reflexivity |].
    rewrite Hne. unfold mean. cbn [map List.length].
    rewrite length_map. reflexivity.
  - exact Hne.
  - reflexivity.
Qed.

(** C5.  The chart series has [min 7 n] points for [n] predictions; it is
    the first seven predictions in reverse, each turned into its date,
    yield and confidence.  When the predictions arrive newest first, the
    series runs from the oldest to the newest and the predictions left out
    are no newer than the ones kept. *)
Theorem chartData_recent_seven_oldest_first
  (toLocaleDateString : string -> string) (instant : string -> Z)
  (predictions : list Prediction.t) :
  List.length (chartData toLocaleDateString predictions)
  = Nat.min 7 (List.length predictions)
  /\ chartData toLocaleDateString predictions
     = map (fun pred =>
              mkChartPoint (toLocaleDateString (Prediction.created_at pred))
                (Prediction.yield_per_hectare pred)
                (Prediction.confidence_score pred))
         (rev (slice0 7 predictions))
  /\ (newestFirst instant predictions ->
      oldestFirst instant (rev (slice0 7 predictions))
      /\ forall kept dropped,
           In kept (slice0 7 predictions) ->
           In dropped (skipn 7 predictions) ->
           (instant (Prediction.created_at dropped)
            <= instant (Prediction.created_at kept))%Z).
Proof.
  unfold chartData, slice0. split; [| split].
  - rewrite length_rev, length_map. apply length_firstn.
  - rewrite map_rev. reflexivity.
  - intros Hsorted. split.
    + unfold oldestFirst. unfold newestFirst in Hsorted.
      apply (StronglySorted_rev
               (fun a b => (instant (Prediction.created_at b)
                            <= instant (Prediction.created_at a))%Z)).
      apply StronglySorted_firstn. assumption.
    + intros kept dropped Hk Hd.
      apply (StronglySorted_split _ 7 predictions Hsorted kept dropped Hk Hd).
Qed.

(** C6.  The mount effect of a signed-in user hands exactly one batch of
    three queries to [Promise.all]: the farms by [created_at] descending
    with no limit, the predictions by [created_at] descending limited to
    10, and the profiles as a single row; all three are selections. *)
Theorem mount_issues_three_reads (u : User) (answers : Answers) (w : World) :
  batches (trace (mountEffect (Some u) answers w))
  = batches (trace w) ++ [[farmsQuery; predictionsQuery; profileQuery]]
  /\ farmsQuery = mkQuery "farms" [Select "*"; Order "created_at" false]
  /\ predictionsQuery
     = mkQuery "predictions"
         [Select "*"; Order "created_at" false; Limit 10]
  /\ profileQuery = mkQuery "profiles" [Select "*"; Single]
  /\ (ordering farmsQuery = [("created_at", false)]
      /\ rowLimit farmsQuery = None /\ isSingle farmsQuery = false)
  /\ (ordering predictionsQuery = [("created_at", false)]
      /\ rowLimit predictionsQuery = Some 10%nat
      /\ isSingle predictionsQuery = false)
  /\ (isSingle profileQuery = true /\ selects profileQuery = ["*"]).
Proof.
  split; [| repeat split].
  unfold mountEffect, fetchDashboardData.
  destruct (promiseAll _ _ _) as [[[r1 r2] r3] | reason].
  - unfold whenData.
    destruct (data r1), (data r2), (data r3); cbn [setLoading setFarms
      setPredictions setProfile emit trace state];
      rewrite batches_app; reflexivity.
  - cbn [setLoading emit trace state]. rewrite <- app_assoc.
    rewrite batches_app. reflexivity.
Qed.

(** What [fetchDashboardData] does when a promise rejects, and when none
    does. *)
Lemma fetch_rejected (answers : Answers) (w : World) (reason : string) :
  promiseAll (farmsAnswer answers) (predictionsAnswer answers)
    (profileAnswer answers) = Rejected reason ->
  fetchDashboardData answers w
  = mkWorld
      (mkState (farms (state w)) (predictions (state w)) (profile (state w))
         false)
      (trace w
       ++ [PromiseAll dashboardQueries;
           ConsoleError "Error fetching dashboard data:" reason]).
Proof.
  intros H. unfold fetchDashboardData. rewrite H.
  unfold setLoading, emit.
  cbn [trace state farms predictions profile loading].
  rewrite <- app_assoc. reflexivity.
Qed.

Lemma fetch_fulfilled (answers : Answers) (w : World) r1 r2 r3 :
  promiseAll (farmsAnswer answers) (predictionsAnswer answers)
    (profileAnswer answers) = Fulfilled (r1, r2, r3) ->
  fetchDashboardData answers w
  = mkWorld
      (mkState
         (match data r1 with Some d => d | None => farms (state w) end)
         (match data r2 with Some d => d | None => predictions (state w) end)
         (match data r3 with Some d => Some d | None => profile (state w) end)
         false)
      (trace w ++ [PromiseAll dashboardQueries]).
Proof.
  intros H. unfold fetchDashboardData. rewrite H. unfold whenData.
  destruct (data r1), (data r2), (data r3); reflexivity.
Qed.

Lemma promiseAll_cases (answers : Answers) :
  (anyRejected answers = true
   /\ exists reason,
        promiseAll (farmsAnswer answers) (predictionsAnswer answers)
          (profileAnswer answers) = Rejected reason)
  \/ (anyRejected answers = false
      /\ exists r1 r2 r3,
           farmsAnswer answers = Fulfilled r1
           /\ predictionsAnswer answers = Fulfilled r2
           /\ profileAnswer answers = Fulfilled r3
           /\ promiseAll (farmsAnswer answers) (predictionsAnswer answers)
                (profileAnswer answers) = Fulfilled (r1, r2, r3)).
Proof.
  unfold anyRejected.
  destruct (farmsAnswer answers) as [r1 | e1],
           (predictionsAnswer answers) as [r2 | e2],
           (profileAnswer answers) as [r3 | e3]; cbn;
    first [ right; split; [reflexivity |];
            exists r1, r2, r3; repeat split; reflexivity
          | left; split; [reflexivity |]; eexists; reflexivity ].
Qed.

(** C7, as amended.  Whatever the three queries answer, the fetch ends with
    [loading] false and the page renders.  If one of the promises rejects,
    one error is logged and the three slots keep their values.  If none
    rejects, nothing is logged, also when a result carries no data.  A
    query that is rejected or carries no data leaves its slot as it was;
    an empty farm list, an empty prediction list and a null profile are
    shown by their placeholders, and the page has no error message. *)
Theorem fetch_failure_falls_back
  (toLocaleDateString : string -> string) (answers : Answers) (w : World) :
  let w' := fetchDashboardData answers w in
  loading (state w') = false
  /\ (anyRejected answers = true ->
      (exists reason,
         consoleErrors (trace w')
         = consoleErrors (trace w)
           ++ [("Error fetching dashboard data:", reason)])
      /\ farms (state w') = farms (state w)
      /\ predictions (state w') = predictions (state w)
      /\ profile (state w') = profile (state w))
  /\ (anyRejected answers = false ->
      consoleErrors (trace w') = consoleErrors (trace w))
  /\ (noData (farmsAnswer answers) = true ->
      farms (state w') = farms (state w))
  /\ (noData (predictionsAnswer answers) = true ->
      predictions (state w') = predictions (state w))
  /\ (noData (profileAnswer answers) = true ->
      profile (state w') = profile (state w))
  /\ exists page,
       render toLocaleDateString (state w') = Rendered page
       /\ (farms (state w') = [] ->
           noFarmsYet page = true /\ farmRows page = [])
       /\ (predictions (state w') = [] ->
           noPredictionsYet page = true /\ trend page = NoPredictionData
           /\ predictionRows page = [])
       /\ (profile (state w') = None ->
           welcome page = "Welcome back, Farmer"%string
           /\ plan page = "Free Plan"%string).
Proof.
  intros w'.
  assert (Hloading : loading (state w') = false).
  { unfold w', fetchDashboardData, setLoading. reflexivity. }
  split; [exact Hloading |].
  assert (Hslots :
    (anyRejected answers = true ->
      (exists reason,
         consoleErrors (trace w')
         = consoleErrors (trace w)
           ++ [("Error fetching dashboard data:"%string, reason)])
      /\ farms (state w') = farms (state w)
      /\ predictions (state w') = predictions (state w)
      /\ profile (state w') = profile (state w))
    /\ (anyRejected answers = false ->
        consoleErrors (trace w') = consoleErrors (trace w))
    /\ (noData (farmsAnswer answers) = true ->
        farms (state w') = farms (state w))
    /\ (noData (predictionsAnswer answers) = true ->
        predictions (state w') = predictions (state w))
    /\ (noData (profileAnswer answers) = true ->
        profile (state w') = profile (state w))).
  { unfold w'.
    destruct (promiseAll_cases answers)
      as [[Hany [reason Hall]] | [Hany (r1 & r2 & r3 & E1 & E2 & E3 & Hall)]].
    - rewrite (fetch_rejected answers w reason Hall), Hany.
      cbn [state trace farms predictions profile].
      rewrite consoleErrors_app. cbn [consoleErrors].
      repeat split; try reflexivity; try discriminate.
      exists reason. reflexivity.
    - rewrite (fetch_fulfilled answers w r1 r2 r3 Hall), Hany, E1, E2, E3.
      cbn [state trace farms predictions profile noData].
      rewrite consoleErrors_app. cbn [consoleErrors].
      rewrite app_nil_r.
      repeat split; try reflexivity; try discriminate.
      + destruct (data r1); [discriminate | reflexivity].
      + destruct (data r2); [discriminate | reflexivity].
      + destruct (data r3); [discriminate | reflexivity]. }
  destruct Hslots as (H1 & H2 & H3 & H4 & H5).
  split; [exact H1 |]. split; [exact H2 |]. split; [exact H3 |].
  split; [exact H4 |]. split; [exact H5 |].
  unfold render. rewrite Hloading. eexists. split; [reflexivity |].
  cbn [noFarmsYet farmRows noPredictionsYet trend predictionRows welcome
       plan].
  split; [| split].
  - intros ->. split; reflexivity.
  - intros ->. repeat split; reflexivity.
  - intros ->. split; reflexivity.
Qed.

(** C8.  With two farms of 2.5 and 1.5 hectares the Total Area card reads
    "4.0 ha". *)
Theorem total_area_card_example
  (toLocaleDateString : string -> string) (f1 f2 : Farm.t)
  (predictions : list Prediction.t) (profile : option Profile.t) :
  Farm.area_hectares f1 == 5 # 2 -> Farm.area_hectares f2 == 3 # 2 ->
  (JsNumber.toFixed 1 (totalArea [f1; f2]) ++ " ha")%string
  = "4.0 ha"%string
  /\ exists page,
       render toLocaleDateString (mkState [f1; f2] predictions profile false)
       = Rendered page
       /\ totalAreaText page = "4.0 ha"%string.
Proof.
  intros E1 E2.
  assert (H : (JsNumber.toFixed 1 (totalArea [f1; f2]) ++ " ha")%string
              = "4.0 ha"%string).
  { rewrite (JsNumberFacts.toFixed_Qeq 1 (totalArea [f1; f2]) 4).
    - reflexivity.
    - unfold totalArea. cbn [fold_left]. rewrite E1, E2. reflexivity. }
  split; [exact H |].
  unfold render. cbn [loading]. eexists. split; [reflexivity |].
  cbn [totalAreaText farms]. exact H.
Qed.

(** *** Concrete runs *)

Example chartData_of_nine :
  map date (chartData Samples.plainDate Samples.ninePredictions)
  = ["2024-03-03"; "2024-03-04"; "2024-03-05"; "2024-03-06"; "2024-03-07";
     "2024-03-08"; "2024-03-09"]%string.
Proof. reflexivity. Qed.

Example chartData_of_none : chartData Samples.plainDate [] = [].
Proof. reflexivity. Qed.

Example avgYield_of_two :
  avgYield [Samples.predictionOn "02" 4 81; Samples.predictionOn "01" 3 80]
  == 7 # 2.
Proof. reflexivity. Qed.

Example no_user_no_query (answers : Answers) :
  mountEffect None answers initialWorld
  = mkWorld initialState [Navigate "/auth"].
Proof. reflexivity. Qed.

Example all_answered_state :
  state (fetchDashboardData Samples.allAnswered initialWorld)
  = mkState [Samples.northField; Samples.riverPlot] Samples.ninePredictions
      (Some Samples.someProfile) false.
Proof. reflexivity. Qed.

(** When the farms query resolves without data nothing is logged, although
    the predictions and the profile are stored. *)
Example farms_without_data_run :
  fetchDashboardData Samples.farmsWithoutData initialWorld
  = mkWorld
      (mkState [] Samples.ninePredictions (Some Samples.someProfile) false)
      [PromiseAll dashboardQueries].
Proof. reflexivity. Qed.

(** C7, as stated, fails: a farms query that comes back without data is a
    fetch "in which a query fails or returns no data", yet no failure is
    logged. *)
Lemma unlogged_missing_data :
  ~ (forall answers : Answers,
       noData (farmsAnswer answers) || noData (predictionsAnswer answers)
       || noData (profileAnswer answers) = true ->
       let w' := fetchDashboardData answers initialWorld in
       consoleErrors (trace w') <> []
       /\ (noData (farmsAnswer answers) = true -> farms (state w') = [])
       /\ (noData (predictionsAnswer answers) = true ->
           predictions (state w') = [])
       /\ (noData (profileAnswer answers) = true ->
           profile (state w') = None)
       /\ loading (state w') = false).
Proof.
  intros H.
  destruct (H Samples.farmsWithoutData eq_refl) as [Hlogged _].
  apply Hlogged. reflexivity.
Qed.

Lemma chartData_witness :
  newestFirst Samples.digitsOf Samples.ninePredictions
  /\ List.length (chartData Samples.plainDate Samples.ninePredictions) = 7%nat
  /\ oldestFirst Samples.digitsOf (rev (slice0 7 Samples.ninePredictions)).
Proof.
  assert (Hsorted : newestFirst Samples.digitsOf Samples.ninePredictions).
  { unfold newestFirst, Samples.ninePredictions.
    repeat first [ apply SSorted_cons | apply SSorted_nil
                 | apply Forall_cons | apply Forall_nil ];
      vm_compute; discriminate. }
  destruct (chartData_recent_seven_oldest_first Samples.plainDate
              Samples.digitsOf Samples.ninePredictions)
    as (Hlen & _ & Hord).
  split; [exact Hsorted |]. split; [exact Hlen |].
  exact (proj1 (Hord Hsorted)).
Defined.

Lemma fetch_failure_witness :
  anyRejected Samples.predictionsRejected = true
  /\ state (fetchDashboardData Samples.predictionsRejected initialWorld)
     = mkState [] [] None false
  /\ consoleErrors
       (trace (fetchDashboardData Samples.predictionsRejected initialWorld))
     = [("Error fetching dashboard data:", "Failed to fetch")]%string
  /\ exists page,
       render Samples.plainDate
         (state (fetchDashboardData Samples.predictionsRejected initialWorld))
       = Rendered page
       /\ noFarmsYet page = true /\ noPredictionsYet page = true
       /\ trend page = NoPredictionData.
Proof.
  destruct (fetch_failure_falls_back Samples.plainDate
              Samples.predictionsRejected initialWorld)
    as (_ & Hrej & _ & _ & _ & _ & page & Hpage & Hfarms & Hpreds & _).
  destruct (Hrej eq_refl) as (_ & Hf & Hp & _).
  split; [reflexivity |]. split; [reflexivity |]. split; [reflexivity |].
  exists page. split; [exact Hpage |].
  destruct (Hfarms Hf) as [H1 _]. destruct (Hpreds Hp) as (H2 & H3 & _).
  split; [exact H1 |]. split; [exact H2 | exact H3].
Defined.

Lemma total_area_card_witness :
  Farm.area_hectares Samples.northField == 5 # 2
  /\ Farm.area_hectares Samples.riverPlot == 3 # 2
  /\ exists page,
       render Samples.plainDate
         (mkState [Samples.northField; Samples.riverPlot]
            Samples.ninePredictions (Some Samples.someProfile) false)
       = Rendered page
       /\ totalAreaText page = "4.0 ha"%string.
Proof.
  split; [reflexivity |]. split; [reflexivity |].
  exact (proj2 (total_area_card_example Samples.plainDate Samples.northField
                  Samples.riverPlot Samples.ninePredictions
                  (Some Samples.someProfile) (Qeq_refl _) (Qeq_refl _))).
Defined.

End DashboardFacts.

(** ** The exact model against binary64 on the inputs used above *)

Module Binary64Facts.
Import Binary64.

(** 0 + 2.5 + 1.5 is exactly 4 in binary64. *)
Example total_area_in_binary64 :
  stands_for
    (add (add (S754_zero false) (dyadic 5 (-1))) (dyadic 3 (-1)))
    (Dashboard.totalArea [Samples.northField; Samples.riverPlot])
  = true.
Proof. vm_compute. reflexivity. Qed.

(** With the draw 1023/1024 the four products and sums are exact in
    binary64, so the readings are those of the exact model. *)
Example high_draw_yield_in_binary64 :
  stands_for (scaled (dyadic 1023 (-10)) (dyadic 3 0) (dyadic 2 0))
    (Samples.highDraws 0 * 3 + 2) = true.
Proof. vm_compute. reflexivity. Qed.

Example high_draw_temperature_in_binary64 :
  stands_for (scaled (dyadic 1023 (-10)) (dyadic 10 0) (dyadic 18 0))
    (Samples.highDraws 1 * 10 + 18) = true.
Proof. vm_compute. reflexivity. Qed.

Example high_draw_rainfall_in_binary64 :
  stands_for (scaled (dyadic 1023 (-10)) (dyadic 60 0) (dyadic 30 0))
    (Samples.highDraws 2 * 60 + 30) = true.
Proof. vm_compute. reflexivity. Qed.

Example high_draw_confidence_in_binary64 :
  stands_for (scaled (dyadic 1023 (-10)) (dyadic 20 0) (dyadic 80 0))
    (Samples.highDraws 3 * 20 + 80) = true.
Proof. vm_compute. reflexivity. Qed.

Example half_draw_yield_in_binary64 :
  stands_for (scaled (dyadic 1 (-1)) (dyadic 3 0) (dyadic 2 0))
    (Samples.halfDraws 0 * 3 + 2) = true.
Proof. vm_compute. reflexivity. Qed.

(** On the draw 3190049736054101 / 2^52 the product and the sum round up
    to 4.125 in binary64, so the yield reads one unit of the last digit
    above that of the exact model; range and shape are the same. *)
Example last_digit_may_differ :
  toFixed 2 (scaled (dyadic 3190049736054101 (-52)) (ofZ 3) (ofZ 2))
  = "4.13"
  /\ JsNumber.toFixed 2 ((3190049736054101 # 4503599627370496) * 3 + 2)
     = "4.12".
Proof. vm_compute. split; reflexivity. Qed.

End Binary64Facts.

(** ** More about the form: inputs, the delay, sequences of events *)

Module FormBehaviour.
Import PredictionForm PredictionFormFacts.
Local Open Scope list_scope.
Local Open Scope form_scope.

Lemma required_filled_or_missing (fd : FormData) :
  requiredFilled fd \/ requiredMissing fd.
Proof.
  unfold requiredFilled, requiredMissing.
  destruct (string_dec (name fd) "") as [-> | Hn]; [right; auto |].
  destruct (string_dec (phone fd) "") as [-> | Hp]; [right; auto |].
  destruct (string_dec (location fd) "") as [-> | Hl]; [right; auto |].
  destruct (string_dec (crop fd) "") as [-> | Hc]; [right; auto |].
  left. auto.
Qed.

Lemma filled_not_missing (fd : FormData) :
  requiredFilled fd -> requiredMissing fd -> False.
Proof.
  intros (Hn & Hp & Hl & Hc) [H | [H | [H | H]]]; congruence.
Qed.

Lemma handleInputChange_world (field : Field) (value : string) (w : World) :
  exec (handleInputChange field value) w
  = mkWorld (withField field value (formData w)) (isLoading w) (now w)
      (timers w) (randomCalls w) (trace w).
Proof. reflexivity. Qed.

(** X1.  Changing an input stores the value in its field and in no other,
    and touches nothing else of the component. *)
Theorem input_change_sets_one_field
  (field : Field) (value : string) (w : World) :
  fieldOf field (formData (exec (handleInputChange field value) w)) = value
  /\ (forall other : Field,
        other <> field ->
        fieldOf other (formData (exec (handleInputChange field value) w))
        = fieldOf other (formData w))
  /\ isLoading (exec (handleInputChange field value) w) = isLoading w
  /\ timers (exec (handleInputChange field value) w) = timers w
  /\ trace (exec (handleInputChange field value) w) = trace w.
Proof.
  rewrite handleInputChange_world. cbn [formData isLoading timers trace].
  split; [destruct field; reflexivity |].
  split; [| repeat split].
  intros other Hother.
  destruct field, other; try reflexivity; contradiction Hother; reflexivity.
Qed.

(** X2.  Of two changes of one field the later one counts, changes of
    different fields can be made in either order, and writing back what a
    field holds changes nothing. *)
Theorem input_changes_compose
  (f g : Field) (u v : string) (fd : FormData) :
  withField f v (withField f u fd) = withField f v fd
  /\ (f <> g ->
      withField f u (withField g v fd) = withField g v (withField f u fd))
  /\ withField f (fieldOf f fd) fd = fd.
Proof.
  split; [destruct f; reflexivity |].
  split; [| destruct fd, f; reflexivity].
  intros Hfg.
  destruct f, g; try reflexivity; contradiction Hfg; reflexivity.
Qed.

Lemma withField_optional (field : Field) (value : string) (fd : FormData) :
  isRequired field = false ->
  name (withField field value fd) = name fd
  /\ phone (withField field value fd) = phone fd
  /\ location (withField field value fd) = location fd
  /\ crop (withField field value fd) = crop fd.
Proof. destruct field; intros H; try discriminate H; repeat split. Qed.

Lemma rejections_app (t1 t2 : list Event) :
  rejections (t1 ++ t2) = (rejections t1 + rejections t2)%nat.
Proof. unfold rejections. rewrite filter_app, length_app. reflexivity. Qed.

Lemma submissions_app (t1 t2 : list Event) :
  submissions (t1 ++ t2) = (submissions t1 + submissions t2)%nat.
Proof. unfold submissions. rewrite filter_app, length_app. reflexivity. Qed.

Lemma completions_app (t1 t2 : list Event) :
  completions (t1 ++ t2) = (completions t1 + completions t2)%nat.
Proof. unfold completions. rewrite filter_app, length_app. reflexivity. Qed.

(** What [handleSubmit] adds to the count of rejections. *)
Lemma handleSubmit_rejections (w : World) :
  (requiredFilled (formData w) ->
   rejections (trace (exec handleSubmit w)) = rejections (trace w))
  /\ (requiredMissing (formData w) ->
      rejections (trace (exec handleSubmit w)) = S (rejections (trace w))).
Proof.
  split; intros H.
  - rewrite (handleSubmit_filled w H). cbn [trace].
    rewrite rejections_app. cbn. lia.
  - rewrite (handleSubmit_missing w H). cbn [trace].
    rewrite rejections_app. cbn. lia.
Qed.

(** X3.  The validation looks at name, phone, location and crop only:
    whatever is typed into another field, the submission is rejected
    exactly when it was before; and emptying one of the four gets the
    submission rejected. *)
Theorem validation_reads_required_fields_only
  (field : Field) (value : string) (w : World) :
  (isRequired field = false ->
   rejections
     (trace (exec (handleInputChange field value ;; handleSubmit) w))
   = rejections (trace (exec handleSubmit w)))
  /\ (isRequired field = true ->
      rejections
        (trace (exec (handleInputChange field "" ;; handleSubmit) w))
      = S (rejections (trace w))
      /\ timers (exec (handleInputChange field "" ;; handleSubmit) w)
         = timers w).
Proof.
  split; intros Hfield.
  - rewrite exec_bind.
    set (w1 := exec (handleInputChange field value) w).
    assert (Htrace : trace w1 = trace w) by reflexivity.
    destruct (withField_optional field value (formData w) Hfield)
      as (Hn & Hp & Hl & Hc).
    destruct (required_filled_or_missing (formData w)) as [H | H].
    + assert (H1 : requiredFilled (formData w1)).
      { unfold w1. rewrite handleInputChange_world. cbn [formData].
        unfold requiredFilled in *. rewrite Hn, Hp, Hl, Hc. exact H. }
      rewrite (proj1 (handleSubmit_rejections w1) H1),
        (proj1 (handleSubmit_rejections w) H), Htrace. reflexivity.
    + assert (H1 : requiredMissing (formData w1)).
      { unfold w1. rewrite handleInputChange_world. cbn [formData].
        unfold requiredMissing in *. rewrite Hn, Hp, Hl, Hc. exact H. }
      rewrite (proj2 (handleSubmit_rejections w1) H1),
        (proj2 (handleSubmit_rejections w) H), Htrace. reflexivity.
  - rewrite exec_bind.
    set (w1 := exec (handleInputChange field "" ) w).
    assert (H1 : requiredMissing (formData w1)).
    { unfold w1. rewrite handleInputChange_world. cbn [formData].
      unfold requiredMissing.
      destruct field; try discriminate Hfield; cbn; auto. }
    rewrite (proj2 (handleSubmit_rejections w1) H1).
    rewrite (handleSubmit_missing w1 H1). split; reflexivity.
Qed.

Lemma partition_snoc_later {A} (f : A -> bool) (l : list A) (x : A) :
  f x = false ->
  partition f (l ++ [x])
  = (fst (partition f l), snd (partition f l) ++ [x]).
Proof.
  intros Hx. induction l as [| y l IH]; simpl.
  - rewrite Hx. reflexivity.
  - rewrite IH. destruct (partition f l) as [a b].
    destruct (f y); reflexivity.
Qed.

Section WithRandom.

Variable random : nat -> Q.

(** A valid submission followed by a wait shorter than the delay. *)
Lemma submit_then_short_wait (w : World) (ms : nat) :
  requiredFilled (formData w) -> (ms < 2000)%nat ->
  exec (handleSubmit ;; advance random ms) w
  = mkWorld (formData w)
      (match readyCallbacks ms w with [] => true | _ => false end)
      (now w + ms)
      (snd (partition (fun tm => (due tm <=? now w + ms)%nat) (timers w))
       ++ [mkTimer (now w + 2000) (SimulatedApiCall (formData w))])
      (4 * List.length (readyCallbacks ms w) + randomCalls w)
      (trace w ++ [PreventDefault]
       ++ callbackEvents random (randomCalls w) (readyCallbacks ms w)).
Proof.
  intros Hfilled Hms.
  rewrite exec_bind, (handleSubmit_filled w Hfilled), advance_world.
  unfold readyCallbacks.
  cbn [formData isLoading now timers randomCalls trace].
  rewrite partition_snoc_later
    by (cbn [due]; apply Nat.leb_gt; lia).
  cbn [fst snd]. rewrite <- app_assoc. reflexivity.
Qed.

(** A valid submission followed by a wait of at least the delay. *)
Lemma submit_then_long_wait (w : World) (ms : nat) :
  requiredFilled (formData w) -> (2000 <= ms)%nat ->
  exec (handleSubmit ;; advance random ms) w
  = mkWorld (formData w) false (now w + ms)
      (snd (partition (fun tm => (due tm <=? now w + ms)%nat) (timers w)))
      (4 * S (List.length (readyCallbacks ms w)) + randomCalls w)
      (trace w ++ [PreventDefault]
       ++ callbackEvents random (randomCalls w) (readyCallbacks ms w)
       ++ callbackEvents random
            (4 * List.length (readyCallbacks ms w) + randomCalls w)
            [SimulatedApiCall (formData w)]).
Proof.
  intros Hfilled Hms.
  rewrite exec_bind, (handleSubmit_filled w Hfilled), advance_world.
  unfold readyCallbacks.
  cbn [formData isLoading now timers randomCalls trace].
  rewrite partition_snoc by (cbn [due]; apply Nat.leb_le; lia).
  cbn [fst snd]. rewrite map_app, callbackEvents_app, length_app, length_map.
  cbn [map callback List.length].
  rewrite <- !app_assoc. f_equal.
  - destruct (map callback _); reflexivity.
  - lia.
Qed.

(** X4.  The simulated prediction takes two seconds, no less: after a
    valid submission a wait of less than 2000 ms delivers nothing that it
    would not deliver anyway and leaves the timer of the submission
    pending; a wait of 2000 ms or more delivers exactly one more result,
    built from the submitted record, and the timer is gone. *)
Theorem result_arrives_after_two_seconds (w : World) (ms : nat) :
  requiredFilled (formData w) ->
  ((ms < 2000)%nat ->
   predictionsDelivered (trace (exec (handleSubmit ;; advance random ms) w))
   = predictionsDelivered (trace (exec (advance random ms) w))
   /\ timers (exec (handleSubmit ;; advance random ms) w)
      = timers (exec (advance random ms) w)
        ++ [mkTimer (now w + 2000) (SimulatedApiCall (formData w))])
  /\ ((2000 <= ms)%nat ->
      (exists result,
         predictionsDelivered
           (trace (exec (handleSubmit ;; advance random ms) w))
         = predictionsDelivered (trace (exec (advance random ms) w))
           ++ [result]
         /\ farmData result = formData w)
      /\ timers (exec (handleSubmit ;; advance random ms) w)
         = timers (exec (advance random ms) w)
      /\ isLoading (exec (handleSubmit ;; advance random ms) w) = false).
Proof.
  intros Hfilled. split; intros Hms.
  - rewrite (submit_then_short_wait w ms Hfilled Hms), advance_world.
    cbn [trace timers]. split; [| reflexivity].
    rewrite !predictionsDelivered_app. reflexivity.
  - rewrite (submit_then_long_wait w ms Hfilled Hms), advance_world.
    cbn [trace timers isLoading]. split; [| split; reflexivity].
    rewrite !predictionsDelivered_app.
    cbn [callbackEvents predictionsDelivered app].
    eexists. split; [rewrite app_assoc; reflexivity | reflexivity].
Qed.

(** X5.  The result carries the record as it was when the form was
    submitted: what is typed during the delay reaches the form state but
    not the result. *)
Theorem result_holds_the_record_at_submission
  (w : World) (field : Field) (value : string) :
  requiredFilled (formData w) ->
  (exists result,
     predictionsDelivered
       (trace (exec (handleSubmit ;; handleInputChange field value ;;
                     advance random 2000) w))
     = predictionsDelivered (trace (exec (advance random 2000) w))
       ++ [result]
     /\ farmData result = formData w)
  /\ formData (exec (handleSubmit ;; handleInputChange field value ;;
                     advance random 2000) w)
     = withField field value (formData w).
Proof.
  intros Hfilled.
  rewrite !exec_bind, (handleSubmit_filled w Hfilled),
    handleInputChange_world, !advance_world.
  unfold readyCallbacks.
  cbn [formData isLoading now timers randomCalls trace].
  rewrite partition_snoc by (cbn [due]; apply Nat.leb_refl).
  cbn [fst snd]. rewrite map_app, callbackEvents_app.
  cbn [map callback callbackEvents].
  split; [| reflexivity].
  rewrite !predictionsDelivered_app.
  cbn [predictionsDelivered app]. rewrite app_nil_r.
  eexists. split; [rewrite <- ?app_assoc; reflexivity | reflexivity].
Qed.

End WithRandom.

(** *** Sequences of events *)

Section Sequences.

Variable random : nat -> Q.

Lemma performAll_cons (a : Action) (rest : list Action) (w : World) :
  exec (performAll random (a :: rest)) w
  = exec (performAll random rest) (exec (perform random a) w).
Proof. cbn [performAll]. apply exec_bind. Qed.

Lemma userPerformAll_cons (a : Action) (rest : list Action) (w : World) :
  exec (userPerformAll random (a :: rest)) w
  = exec (userPerformAll random rest) (exec (userPerform random a) w).
Proof. cbn [userPerformAll]. apply exec_bind. Qed.

Lemma callbackEvents_counts (k : nat) (cbs : list Callback) :
  submissions (callbackEvents random k cbs) = 0%nat
  /\ rejections (callbackEvents random k cbs) = 0%nat
  /\ completions (callbackEvents random k cbs) = List.length cbs
  /\ List.length (predictionsDelivered (callbackEvents random k cbs))
     = List.length cbs.
Proof.
  revert k. induction cbs as [| [fd] cbs IH]; intros k.
  - repeat split.
  - destruct (IH (4 + k)%nat) as (H1 & H2 & H3 & H4).
    unfold submissions, rejections, completions in *.
    cbn [callbackEvents filter isSubmission isRejection isCompletion
         predictionsDelivered List.length title predictionComplete].
    change ("Prediction Complete!" =? "Missing Information")%string
      with false.
    change ("Prediction Complete!" =? "Prediction Complete!")%string
      with true.
    cbn [List.length]. rewrite H1, H2, H3, H4. repeat split.
Qed.

Lemma ready_later_length (ms : nat) (w : World) :
  (List.length (readyCallbacks ms w)
   + List.length
       (snd (partition (fun tm => (due tm <=? now w + ms)%nat) (timers w))))%nat
  = List.length (timers w).
Proof.
  unfold readyCallbacks. rewrite length_map.
  pose proof (partition_length
                (fun tm => (due tm <=? now w + ms)%nat) (timers w)) as H.
  destruct (partition _ (timers w)) as [a b]. cbn [fst snd].
  symmetry. apply H. reflexivity.
Qed.

Lemma perform_accounted (a : Action) (w : World) :
  accounted w -> accounted (exec (perform random a) w).
Proof.
  unfold accounted. intros [Hsub Hcom]. destruct a as [field value | | ms].
  - cbn [perform]. rewrite handleInputChange_world. cbn [trace timers].
    split; assumption.
  - cbn [perform].
    destruct (required_filled_or_missing (formData w)) as [H | H].
    + rewrite (handleSubmit_filled w H). cbn [trace timers].
      rewrite submissions_app, rejections_app, completions_app,
        predictionsDelivered_app, !length_app.
      cbn. lia.
    + rewrite (handleSubmit_missing w H). cbn [trace timers].
      rewrite submissions_app, rejections_app, completions_app,
        predictionsDelivered_app, !length_app.
      cbn. lia.
  - cbn [perform]. rewrite advance_world. cbn [trace timers].
    destruct (callbackEvents_counts (randomCalls w) (readyCallbacks ms w))
      as (H1 & H2 & H3 & H4).
    pose proof (ready_later_length ms w) as Hlen.
    rewrite submissions_app, rejections_app, completions_app,
      predictionsDelivered_app, !length_app, H1, H2, H3, H4.
    lia.
Qed.

Lemma performAll_accounted (actions : list Action) (w : World) :
  accounted w -> accounted (exec (performAll random actions) w).
Proof.
  revert w. induction actions as [| a rest IH]; intros w Hw.
  - exact Hw.
  - rewrite performAll_cons. apply IH, perform_accounted, Hw.
Qed.

(** X6.  Whatever is typed, however often the form is submitted and however
    time passes, every call of [handleSubmit] is accounted for exactly
    once: it was rejected with a notice, or its timer is still pending, or
    it has delivered one result; and there are as many "Prediction
    Complete!" notices as results. *)
Theorem every_submission_is_accounted_for (actions : list Action) :
  accounted (exec (performAll random actions) initialWorld).
Proof.
  apply performAll_accounted. unfold accounted. split; reflexivity.
Qed.




Lemma userPerform_oneInFlight (a : Action) (w : World) :
  oneInFlight w -> oneInFlight (exec (userPerform random a) w).
Proof.
  unfold oneInFlight. intros Hw. destruct a as [field value | | ms].
  - cbn [userPerform perform]. rewrite handleInputChange_world.
    cbn [isLoading timers now]. exact Hw.
  - cbn [userPerform]. unfold exec, pressSubmit.
    destruct Hw as [[Hl Ht] | [Hl Ht]]; rewrite Hl.
    + fold (exec handleSubmit w).
      destruct (required_filled_or_missing (formData w)) as [H | H].
      * rewrite (handleSubmit_filled w H), Ht.
        cbn [isLoading timers now app]. right. split; [reflexivity |].
        eexists. split; [reflexivity |]. cbn [due]. lia.
      * rewrite (handleSubmit_missing w H), Ht.
        cbn [isLoading timers]. left. split; reflexivity.
    + cbn [snd]. right. split; assumption.
  - cbn [userPerform perform]. rewrite advance_world. unfold readyCallbacks.
    cbn [isLoading timers now].
    destruct Hw as [[Hl Ht] | [Hl [tm [Ht Hdue]]]]; rewrite Ht.
    + cbn [partition fst snd map]. left. split; [exact Hl | reflexivity].
    + cbn [partition].
      destruct (Nat.leb_spec (due tm) (now w + ms)) as [Hready | Hlater];
        cbn [fst snd map].
      * left. split; reflexivity.
      * right. split; [exact Hl |]. exists tm. split; [reflexivity | lia].
Qed.

(** X8.  With the submit button disabled while [isLoading], at most one
    submission is in flight at any time: the form is either idle with no
    timer, or loading with exactly one timer that is not yet due. *)
Theorem one_submission_in_flight (actions : list Action) :
  oneInFlight (exec (userPerformAll random actions) initialWorld).
Proof.
  assert (Hgen : forall w, oneInFlight w ->
                   oneInFlight (exec (userPerformAll random actions) w)).
  { induction actions as [| a rest IH]; intros w Hw.
    - exact Hw.
    - rewrite userPerformAll_cons. apply IH, userPerform_oneInFlight, Hw. }
  apply Hgen. left. split; reflexivity.
Qed.

End Sequences.

(** *** Concrete runs *)

(** The sample day: two rejections, two results, nothing pending. *)
Example busy_day_run :
  let w := exec (performAll Samples.halfDraws Samples.busyDay) initialWorld in
  submissions (trace w) = 4%nat
  /\ rejections (trace w) = 2%nat
  /\ map (fun r => area (farmData r)) (predictionsDelivered (trace w))
     = [""; "1.5"]%string
  /\ timers w = [].
Proof. vm_compute. repeat split. Qed.

(** The same day with the button disabled while loading: the second press
    is lost, one result. *)
Example busy_day_with_button :
  let w :=
    exec (userPerformAll Samples.halfDraws Samples.busyDay) initialWorld in
  submissions (trace w) = 3%nat
  /\ rejections (trace w) = 2%nat
  /\ List.length (predictionsDelivered (trace w)) = 1%nat.
Proof. vm_compute. repeat split. Qed.

Lemma input_change_witness :
  Crop <> Name
  /\ fieldOf Crop
       (formData (exec (handleInputChange Name "Wanjiru")
                    (Samples.worldWith Samples.noCropForm)))
     = fieldOf Crop Samples.noCropForm.
Proof.
  assert (H : Crop <> Name) by discriminate.
  split; [exact H |].
  exact (proj1 (proj2 (input_change_sets_one_field Name "Wanjiru"
                         (Samples.worldWith Samples.noCropForm))) Crop H).
Defined.

Lemma input_changes_compose_witness :
  Area <> Crop
  /\ withField Area "1.5" (withField Crop "maize" Samples.noCropForm)
     = withField Crop "maize" (withField Area "1.5" Samples.noCropForm).
Proof.
  assert (H : Area <> Crop) by discriminate.
  split; [exact H |].
  exact (proj1 (proj2 (input_changes_compose Area Crop "1.5" "maize"
                         Samples.noCropForm)) H).
Defined.

Lemma validation_witness :
  isRequired SoilPh = false
  /\ rejections
       (trace (exec (handleInputChange SoilPh "7.0" ;; handleSubmit)
                 (Samples.worldWith Samples.noCropForm)))
     = rejections
         (trace (exec handleSubmit (Samples.worldWith Samples.noCropForm))).
Proof.
  split; [reflexivity |].
  exact (proj1 (validation_reads_required_fields_only SoilPh "7.0"
                  (Samples.worldWith Samples.noCropForm)) eq_refl).
Defined.

Lemma result_arrives_witness :
  requiredFilled (formData (Samples.worldWith Samples.filledForm))
  /\ (1999 < 2000)%nat
  /\ predictionsDelivered
       (trace (exec (handleSubmit ;; advance Samples.halfDraws 1999)
                 (Samples.worldWith Samples.filledForm)))
     = predictionsDelivered
         (trace (exec (advance Samples.halfDraws 1999)
                   (Samples.worldWith Samples.filledForm))).
Proof.
  assert (Hf : requiredFilled
                 (formData (Samples.worldWith Samples.filledForm))).
  { unfold requiredFilled. simpl. repeat split; discriminate. }
  assert (Hms : (1999 < 2000)%nat) by lia.
  split; [exact Hf |]. split; [exact Hms |].
  exact (proj1 (proj1 (result_arrives_after_two_seconds Samples.halfDraws
                         (Samples.worldWith Samples.filledForm) 1999 Hf)
                  Hms)).
Defined.

Lemma result_holds_the_record_witness :
  requiredFilled (formData (Samples.worldWith Samples.filledForm))
  /\ formData
       (exec (handleSubmit ;; handleInputChange Crop "beans" ;;
              advance Samples.halfDraws 2000)
          (Samples.worldWith Samples.filledForm))
     = withField Crop "beans" Samples.filledForm.
Proof.
  assert (Hf : requiredFilled
                 (formData (Samples.worldWith Samples.filledForm))).
  { unfold requiredFilled. simpl. repeat split; discriminate. }
  split; [exact Hf |].
  exact (proj2 (result_holds_the_record_at_submission Samples.halfDraws
                  (Samples.worldWith Samples.filledForm) Crop "beans" Hf)).
Defined.


End FormBehaviour.

(** ** More about the dashboard: mounting, refetching, the rendered page *)

Module DashboardBehaviour.
Import Dashboard DashboardFacts.
Local Open Scope list_scope.

(** X10.  Without a signed-in user the mount effect only redirects to
    "/auth": no query is issued, nothing is logged, the state is untouched,
    so a dashboard mounted signed out keeps showing its spinner. *)
Theorem signed_out_mount_only_redirects
  (toLocaleDateString : string -> string) (answers : Answers) (w : World) :
  trace (mountEffect None answers w) = trace w ++ [Navigate "/auth"]
  /\ batches (trace (mountEffect None answers w)) = batches (trace w)
  /\ consoleErrors (trace (mountEffect None answers w))
     = consoleErrors (trace w)
  /\ state (mountEffect None answers w) = state w
  /\ render toLocaleDateString
       (state (mountEffect None answers initialWorld)) = Spinner.
Proof.
  cbn [mountEffect]. unfold emit. cbn [trace state].
  rewrite batches_app, consoleErrors_app. cbn [batches consoleErrors].
  rewrite !app_nil_r. repeat split.
Qed.

(** X11.  When none of the three promises rejects, each slot whose result
    carries data holds exactly that data afterwards, an empty list
    included: an empty answer clears the list, a [null] answer keeps it. *)
Theorem fulfilled_fetch_stores_the_data
  (answers : Answers) (w : World) r1 r2 r3 :
  farmsAnswer answers = Fulfilled r1 ->
  predictionsAnswer answers = Fulfilled r2 ->
  profileAnswer answers = Fulfilled r3 ->
  (forall d, data r1 = Some d ->
             farms (state (fetchDashboardData answers w)) = d)
  /\ (forall d, data r2 = Some d ->
                predictions (state (fetchDashboardData answers w)) = d)
  /\ (forall d, data r3 = Some d ->
                profile (state (fetchDashboardData answers w)) = Some d)
  /\ consoleErrors (trace (fetchDashboardData answers w))
     = consoleErrors (trace w).
Proof.
  intros E1 E2 E3.
  rewrite (fetch_fulfilled answers w r1 r2 r3)
    by (rewrite E1, E2, E3; reflexivity).
  cbn [state farms predictions profile trace].
  rewrite consoleErrors_app. cbn [consoleErrors]. rewrite app_nil_r.
  repeat split; intros d Hd; rewrite Hd; reflexivity.
Qed.

(** X12.  Fetching again with the same answers changes nothing in the
    state. *)
Theorem refetch_is_idempotent (answers : Answers) (w : World) :
  state (fetchDashboardData answers (fetchDashboardData answers w))
  = state (fetchDashboardData answers w).
Proof.
  destruct (promiseAll_cases answers)
    as [[_ [reason Hall]] | [_ (r1 & r2 & r3 & _ & _ & _ & Hall)]].
  - rewrite !(fetch_rejected answers _ reason Hall). reflexivity.
  - rewrite !(fetch_fulfilled answers _ r1 r2 r3 Hall).
    cbn [state farms predictions profile].
    destruct (data r1), (data r2), (data r3); reflexivity.
Qed.

(** X13.  A refetch in which a promise rejects keeps everything the
    earlier fetch stored, also what the other two queries returned this
    time. *)
Theorem failed_refetch_keeps_data (first again : Answers) (w : World) :
  anyRejected again = true ->
  state (fetchDashboardData again (fetchDashboardData first w))
  = state (fetchDashboardData first w).
Proof.
  intros Hrej.
  destruct (promiseAll_cases again)
    as [[_ [reason Hall]] | [Hnone _]]; [| congruence].
  rewrite (fetch_rejected again _ reason Hall). cbn [state].
  assert (Hloading : loading (state (fetchDashboardData first w)) = false)
    by reflexivity.
  destruct (state (fetchDashboardData first w)) as [f p pr l].
  cbn [farms predictions profile loading] in *. rewrite Hloading.
  reflexivity.
Qed.

(** *** The rendered page *)

Lemma firstn_nil_iff {A} (n : nat) (l : list A) :
  firstn (S n) l = [] <-> l = [].
Proof. destruct l; simpl; split; congruence. Qed.

Lemma length_zero_eqb {A} (l : list A) :
  (List.length l =? 0)%nat = true <-> l = [].
Proof. destruct l; simpl; split; congruence. Qed.

(** X14.  Once loading is over the page shows the counts of all farms and
    predictions, at most five rows of each, and a placeholder exactly where
    there is no row to show: "No farms yet" exactly when there is no farm
    row, "No predictions yet" exactly when there is no prediction row, and
    "No prediction data available" instead of the chart exactly when there
    is no prediction. *)
Theorem page_shows_rows_or_placeholders
  (toLocaleDateString : string -> string) (s : State) :
  loading s = false ->
  exists page,
    render toLocaleDateString s = Rendered page
    /\ totalFarms page = List.length (farms s)
    /\ predictionCount page = List.length (predictions s)
    /\ List.length (farmRows page) = Nat.min 5 (List.length (farms s))
    /\ List.length (predictionRows page)
       = Nat.min 5 (List.length (predictions s))
    /\ (noFarmsYet page = true <-> farmRows page = [])
    /\ (noPredictionsYet page = true <-> predictionRows page = [])
    /\ (trend page = NoPredictionData <-> predictions s = [])
    /\ (trend page = NoPredictionData
        \/ trend page = LineChart (chartData toLocaleDateString (predictions s))).
Proof.
  intros Hloading. unfold render. rewrite Hloading.
  eexists. split; [reflexivity |].
  cbn [totalFarms predictionCount farmRows predictionRows noFarmsYet
       noPredictionsYet trend].
  unfold slice0, chartData.
  split; [reflexivity |]. split; [reflexivity |].
  split; [apply length_firstn |].
  split; [rewrite length_map; apply length_firstn |].
  split; [rewrite length_zero_eqb, firstn_nil_iff; reflexivity |].
  split.
  { rewrite length_zero_eqb. split.
    - intros ->. reflexivity.
    - intros H. apply map_eq_nil in H. apply firstn_nil_iff in H. exact H. }
  rewrite length_rev, length_map.
  destruct (predictions s) as [| p ps]; cbn [firstn List.length Nat.ltb
    Nat.leb].
  - split; [split; reflexivity | left; reflexivity].
  - split; [split; discriminate | right; reflexivity].
Qed.

Lemma find_first_match (farms before after : list Farm.t) (f : Farm.t)
  (key : string) :
  farms = before ++ f :: after ->
  (forall g, In g before -> Farm.id g <> key) ->
  Farm.id f = key ->
  find (fun g => (Farm.id g =? key)%string) farms = Some f.
Proof.
  intros -> Hbefore Hf. induction before as [| g before IH]; simpl.
  - rewrite (proj2 (String.eqb_eq _ _) Hf). reflexivity.
  - rewrite (proj2 (String.eqb_neq _ _) (Hbefore g (or_introl eq_refl))).
    apply IH. intros h Hh. apply Hbefore. right. exact Hh.
Qed.

Lemma find_no_match (farms : list Farm.t) (key : string) :
  (forall g, In g farms -> Farm.id g <> key) ->
  find (fun g => (Farm.id g =? key)%string) farms = None.
Proof.
  intros H. induction farms as [| g farms IH]; simpl; [reflexivity |].
  rewrite (proj2 (String.eqb_neq _ _) (H g (or_introl eq_refl))).
  apply IH. intros h Hh. apply H. right. exact Hh.
Qed.

(** X15.  A prediction row names the first farm whose id is the
    prediction's [farm_id]; when no fetched farm has that id, or that farm
    has an empty name, the row reads "Unknown Farm". *)
Theorem prediction_row_names_its_farm
  (farms : list Farm.t) (prediction : Prediction.t) :
  ((forall g, In g farms -> Farm.id g <> Prediction.farm_id prediction) ->
   farmName (predictionRow farms prediction) = "Unknown Farm"%string)
  /\ (forall before f after,
        farms = before ++ f :: after ->
        (forall g, In g before ->
                   Farm.id g <> Prediction.farm_id prediction) ->
        Farm.id f = Prediction.farm_id prediction ->
        farmName (predictionRow farms prediction)
        = if (Farm.name f =? "")%string then "Unknown Farm"%string
          else Farm.name f).
Proof.
  unfold predictionRow. cbn [farmName]. split.
  - intros H. rewrite (find_no_match farms _ H). reflexivity.
  - intros before f after Hsplit Hbefore Hf.
    rewrite (find_first_match farms before after f _ Hsplit Hbefore Hf).
    reflexivity.
Qed.

(** X16.  The chart ends with the most recent prediction, and predictions
    after the seventh never reach it. *)
Theorem chart_ends_with_the_newest
  (toLocaleDateString : string -> string)
  (newest : Prediction.t) (others extra : list Prediction.t) :
  chartData toLocaleDateString (newest :: others)
  = rev (map (chartPoint toLocaleDateString) (slice0 6 others))
    ++ [chartPoint toLocaleDateString newest]
  /\ ((7 <= List.length (newest :: others))%nat ->
      chartData toLocaleDateString ((newest :: others) ++ extra)
      = chartData toLocaleDateString (newest :: others)).
Proof.
  unfold chartData, slice0. split; [reflexivity |].
  intros Hlen. rewrite firstn_app.
  replace (7 - List.length (newest :: others))%nat with 0%nat by lia.
  cbn [firstn]. rewrite app_nil_r. reflexivity.
Qed.

(** *** The statistics *)




(** X19.  The "+n this month" count never exceeds the number of farms; it
    is zero exactly when no farm was created in the last thirty days, a
    farm created exactly thirty days ago or with an unreadable date not
    counting. *)
Theorem newThisMonth_counts_recent_farms
  (dateOf : string -> option Z) (today : Z) (farms : list Farm.t) :
  (newThisMonth dateOf today farms <= List.length farms)%nat
  /\ (newThisMonth dateOf today farms = 0%nat
      <-> forall f, In f farms ->
            match dateOf (Farm.created_at f) with
            | Some t => (t <= today - 2592000000)%Z
            | None => True
            end)
  /\ (newThisMonth dateOf today farms = List.length farms
      <-> forall f, In f farms ->
            exists t, dateOf (Farm.created_at f) = Some t
                      /\ (today - 2592000000 < t)%Z).
Proof.
  unfold newThisMonth.
  assert (Hspec : forall f,
            createdThisMonth dateOf today f = true
            <-> exists t, dateOf (Farm.created_at f) = Some t
                          /\ (today - 2592000000 < t)%Z).
  { intros f. unfold createdThisMonth.
    change (30 * 24 * 60 * 60 * 1000)%Z with 2592000000%Z.
    destruct (dateOf (Farm.created_at f)) as [t |].
    - rewrite Z.ltb_lt. split.
      + intros Ht. exists t. split; [reflexivity | exact Ht].
      + intros [t' [[= <-] Ht]]. exact Ht.
    - split; [discriminate | intros [t [[=] _]]]. }
  split; [apply filter_length_le |]. split.
  - split.
    + intros H0 f Hf.
      destruct (createdThisMonth dateOf today f) eqn:E.
      * apply length_zero_iff_nil in H0.
        assert (Hin : In f (filter (createdThisMonth dateOf today) farms))
          by (apply filter_In; split; assumption).
        rewrite H0 in Hin. contradiction.
      * destruct (dateOf (Farm.created_at f)) as [t |] eqn:Et; [| exact I].
        destruct (Z.le_gt_cases t (today - 2592000000)) as [Hle | Hgt];
          [exact Hle |].
        assert (createdThisMonth dateOf today f = true)
          by (apply Hspec; exists t; split; assumption).
        congruence.
    + intros H. apply length_zero_iff_nil.
      induction farms as [| g farms IH]; [reflexivity |].
      cbn [filter].
      destruct (createdThisMonth dateOf today g) eqn:E.
      * apply Hspec in E as [t [Et Ht]].
        specialize (H g (or_introl eq_refl)). rewrite Et in H. lia.
      * apply IH. intros f Hf. apply H. right. exact Hf.
  - split.
    + intros Hall f Hf. apply Hspec.
      induction farms as [| g farms IH]; [contradiction |].
      cbn [filter List.length] in Hall.
      pose proof (filter_length_le (createdThisMonth dateOf today) farms)
        as Hle.
      destruct (createdThisMonth dateOf today g) eqn:E.
      * cbn [List.length] in Hall. destruct Hf as [<- | Hf]; [exact E |].
        apply IH; [lia | exact Hf].
      * lia.
    + intros H. induction farms as [| g farms IH]; [reflexivity |].
      cbn [filter].
      rewrite (proj2 (Hspec g) (H g (or_introl eq_refl))).
      cbn [List.length]. f_equal. apply IH.
      intros f Hf. apply H. right. exact Hf.
Qed.

(** *** Concrete runs *)

(** On 2024-03-31 at 08:00 the farm created on 2024-03-01 at 08:00 is
    exactly thirty days old and no longer counts. *)
Example this_month_of_two :
  newThisMonth Samples.readDate 1711872000000
    [Samples.northField; Samples.riverPlot] = 1%nat.
Proof. reflexivity. Qed.

Lemma fulfilled_fetch_witness :
  farmsAnswer Samples.farmsWithoutData
  = Fulfilled (mkResponse None (Some "permission denied"%string))
  /\ predictions
       (state (fetchDashboardData Samples.farmsWithoutData initialWorld))
     = Samples.ninePredictions.
Proof.
  split; [reflexivity |].
  exact (proj1 (proj2
           (fulfilled_fetch_stores_the_data Samples.farmsWithoutData
              initialWorld _ _ _ eq_refl eq_refl eq_refl))
           Samples.ninePredictions eq_refl).
Defined.

Lemma failed_refetch_witness :
  anyRejected Samples.predictionsRejected = true
  /\ state
       (fetchDashboardData Samples.predictionsRejected
          (fetchDashboardData Samples.allAnswered initialWorld))
     = state (fetchDashboardData Samples.allAnswered initialWorld).
Proof.
  split; [reflexivity |].
  exact (failed_refetch_keeps_data Samples.allAnswered
           Samples.predictionsRejected initialWorld eq_refl).
Defined.

Lemma page_witness :
  loading (state (fetchDashboardData Samples.allAnswered initialWorld))
  = false
  /\ exists page,
       render Samples.plainDate
         (state (fetchDashboardData Samples.allAnswered initialWorld))
       = Rendered page
       /\ totalFarms page = 2%nat
       /\ List.length (predictionRows page) = 5%nat.
Proof.
  split; [reflexivity |].
  destruct (page_shows_rows_or_placeholders Samples.plainDate
              (state (fetchDashboardData Samples.allAnswered initialWorld))
              eq_refl)
    as (page & Hpage & Hfarms & _ & _ & Hrows & _).
  exists page. split; [exact Hpage |]. split; [exact Hfarms | exact Hrows].
Defined.

Lemma prediction_row_witness :
  (forall g, In g [Samples.northField; Samples.riverPlot] ->
             Farm.id g <> Prediction.farm_id Samples.unknownFarmPrediction)
  /\ farmName
       (predictionRow [Samples.northField; Samples.riverPlot]
          Samples.unknownFarmPrediction)
     = "Unknown Farm"%string.
Proof.
  assert (H : forall g, In g [Samples.northField; Samples.riverPlot] ->
                Farm.id g
                <> Prediction.farm_id Samples.unknownFarmPrediction).
  { intros g [<- | [<- | []]]; discriminate. }
  split; [exact H |].
  exact (proj1 (prediction_row_names_its_farm
                  [Samples.northField; Samples.riverPlot]
                  Samples.unknownFarmPrediction) H).
Defined.

Lemma chart_witness :
  (7 <= List.length Samples.ninePredictions)%nat
  /\ chartData Samples.plainDate
       (Samples.ninePredictions ++ [Samples.unknownFarmPrediction])
     = chartData Samples.plainDate Samples.ninePredictions.
Proof.
  assert (H : (7 <= List.length Samples.ninePredictions)%nat)
    by (simpl; lia).
  split; [exact H |].
  exact (proj2 (chart_ends_with_the_newest Samples.plainDate
                  (Samples.predictionOn "09" (9 # 2) 91)
                  (tl Samples.ninePredictions)
                  [Samples.unknownFarmPrediction]) H).
Defined.


End DashboardBehaviour.

(** ** The derived statistics in binary64 *)

Module DashboardBinary64Facts.
Import Binary64 DashboardBinary64.
Local Open Scope list_scope.

(** *** Integers below 2^53 are doubles *)

Lemma digits2_pos_iter (m k : positive) :
  Z.pos (digits2_pos (Pos.iter xO m k))
  = (Z.pos (digits2_pos m) + Z.pos k)%Z.
Proof.
  revert m. induction k as [| k IH] using Pos.peano_ind; intros m.
  - simpl. lia.
  - rewrite Pos.iter_succ. cbn [digits2_pos].
    rewrite Pos2Z.inj_succ, IH. lia.
Qed.

Lemma iter_xO_value (m k : positive) :
  Z.pos (Pos.iter xO m k) = (Z.pos m * 2 ^ Z.pos k)%Z.
Proof.
  revert m. induction k as [| k IH] using Pos.peano_ind; intros m.
  - simpl. lia.
  - rewrite Pos.iter_succ, Pos2Z.inj_xO, IH, Pos2Z.inj_succ,
      Z.pow_succ_r by lia.
    ring.
Qed.

Lemma digits2_pos_bound (m : positive) :
  (2 ^ (Z.pos (digits2_pos m) - 1) <= Z.pos m
   < 2 ^ Z.pos (digits2_pos m))%Z.
Proof.
  induction m as [m IH | m IH |]; cbn [digits2_pos];
    rewrite ?Pos2Z.inj_succ.
  - replace (Z.succ (Z.pos (digits2_pos m)) - 1)%Z
      with (Z.succ (Z.pos (digits2_pos m) - 1))%Z by lia.
    rewrite !Z.pow_succ_r by lia. lia.
  - replace (Z.succ (Z.pos (digits2_pos m)) - 1)%Z
      with (Z.succ (Z.pos (digits2_pos m) - 1))%Z by lia.
    rewrite !Z.pow_succ_r by lia. lia.
  - simpl. lia.
Qed.

Lemma fexp_small (x : Z) :
  (1 <= x <= 53)%Z -> fexp prec emax x = (x - 53)%Z.
Proof. intros Hx. unfold fexp, emin, prec, emax. lia. Qed.

(** A mantissa of 53 bits with an exponent in range is kept as it is. *)
Lemma round_exact_53 (mz : positive) (ez : Z) :
  Z.pos (digits2_pos mz) = 53%Z -> (-52 <= ez <= 0)%Z ->
  binary_round_aux prec emax false (Z.pos mz) ez loc_Exact
  = S754_finite false mz ez.
Proof.
  intros Hdz Hez.
  unfold binary_round_aux, shr_fexp. cbn [Zdigits2]. rewrite Hdz.
  rewrite fexp_small by lia.
  replace (53 + ez - 53 - ez)%Z with 0%Z by lia.
  cbn [shr shr_record_of_loc shr_m loc_of_shr_record round_nearest_even
       Zdigits2].
  rewrite Hdz, fexp_small by lia.
  replace (53 + ez - 53 - ez)%Z with 0%Z by lia.
  cbn [shr shr_record_of_loc shr_m].
  replace (ez <=? emax - prec)%Z with true
    by (symmetry; apply Z.leb_le; unfold emax, prec; lia).
  reflexivity.
Qed.

Lemma ofZ_pos_exact (m : positive) :
  (Z.pos m < 2 ^ 53)%Z ->
  exists mz ez, ofZ (Z.pos m) = S754_finite false mz ez
                /\ Z.pos mz = (Z.pos m * 2 ^ (- ez))%Z /\ (ez <= 0)%Z.
Proof.
  intros Hm.
  pose proof (digits2_pos_bound m) as [Hlo Hhi].
  assert (Hd : (1 <= Z.pos (digits2_pos m) <= 53)%Z).
  { split; [lia |].
    destruct (Z.le_gt_cases (Z.pos (digits2_pos m)) 53) as [H | H];
      [exact H |].
    exfalso.
    assert (2 ^ 53 <= 2 ^ (Z.pos (digits2_pos m) - 1))%Z
      by (apply Z.pow_le_mono_r; lia).
    lia. }
  unfold ofZ, binary_normalize, binary_round.
  rewrite Z.add_0_r, (fexp_small _ Hd).
  unfold shl_align. rewrite Z.sub_0_r.
  destruct (Z.pos (digits2_pos m) - 53)%Z as [| p | p] eqn:Ep; try lia.
  - rewrite round_exact_53 by lia.
    exists m, 0%Z. repeat split; simpl; lia.
  - rewrite round_exact_53.
    + exists (Pos.iter xO m p), (Z.neg p). split; [reflexivity |].
      split; [| lia]. rewrite iter_xO_value. reflexivity.
    + rewrite digits2_pos_iter. lia.
    + lia.
Qed.

(** The double of an integer below 2^53 stands for that integer; every
    array length is one. *)
Lemma ofZ_exact (n : Z) :
  (0 <= n < 2 ^ 53)%Z ->
  isFinite (ofZ n) = true /\ value (ofZ n) == inject_Z n.
Proof.
  intros [Hn0 Hn]. destruct n as [| m | m]; try lia.
  - split; reflexivity.
  - destruct (ofZ_pos_exact m Hn) as (mz & ez & E & Hv & Hez).
    rewrite E. split; [reflexivity |].
    unfold value. cbn [toQ].
    rewrite Hv, inject_Z_mult, Zpower_Qpower by lia.
    change (inject_Z 2) with 2.
    rewrite <- Qmult_assoc, <- Qpower_plus by discriminate.
    replace (- ez + ez)%Z with 0%Z by lia. cbn [Qpower]. ring.
Qed.

(** *** Accumulating without rounding *)

Lemma fold_left_accumulate {A} (f : A -> spec_float) (l : list A)
  (acc : spec_float) :
  fold_left (fun sum x => add sum (f x)) l acc = accumulate acc (map f l).
Proof.
  revert acc. induction l as [| x l IH]; intros acc; [reflexivity |].
  cbn [fold_left map accumulate]. apply IH.
Qed.

Lemma accumulate_app (acc : spec_float) (xs ys : list spec_float) :
  accumulate acc (xs ++ ys) = accumulate (accumulate acc xs) ys.
Proof.
  revert acc. induction xs as [| x xs IH]; intros acc; [reflexivity |].
  cbn [app accumulate]. apply IH.
Qed.

Lemma addsExactly_value (x y : spec_float) :
  addsExactly x y = true ->
  isFinite (add x y) = true /\ value (add x y) == value x + value y.
Proof.
  unfold addsExactly. intros H.
  apply andb_prop in H as [H Hv]. apply andb_prop in H as [_ Hf].
  split; [exact Hf | apply Qeq_bool_iff; exact Hv].
Qed.

Lemma additionsExact_value (xs : list spec_float) (acc : spec_float) :
  additionsExact acc xs = true ->
  isFinite (accumulate acc xs) = true
  /\ value (accumulate acc xs) == value acc + Dashboard.sum (map value xs).
Proof.
  revert acc. induction xs as [| x xs IH]; intros acc H.
  - cbn [additionsExact accumulate map Dashboard.sum] in *.
    split; [exact H | ring].
  - cbn [additionsExact] in H. apply andb_prop in H as [Hx Hrest].
    destruct (addsExactly_value acc x Hx) as [_ Hv].
    destruct (IH (add acc x) Hrest) as [Hf IHv].
    cbn [accumulate map Dashboard.sum]. split; [exact Hf |].
    rewrite IHv, Hv. ring.
Qed.

(** *** The claims about the statistics *)

(** C3, as amended.  The total area is the sum of the [area_hectares] of
    the farms accumulated from 0 in list order, each addition rounded to
    the nearest double; it is 0 for the empty list, and it is the exact sum
    of the areas whenever no addition rounds. *)
Theorem totalArea_is_rounded_running_sum (farms : list Farm.t) :
  totalArea farms = accumulate (S754_zero false) (areas farms)
  /\ (forall f : Farm.t,
        totalArea (farms ++ [f])
        = add (totalArea farms) (Farm.area_hectares f))
  /\ totalArea [] = S754_zero false
  /\ (noRounding farms = true ->
      isFinite (totalArea farms) = true
      /\ value (totalArea farms) == Dashboard.sum (map value (areas farms))).
Proof.
  assert (E : forall l, totalArea l = accumulate (S754_zero false) (areas l)).
  { intros l. unfold totalArea, areas. apply fold_left_accumulate. }
  split; [apply E |]. split; [| split; [reflexivity |]].
  - intros f. rewrite !E. unfold areas.
    rewrite map_app, accumulate_app. reflexivity.
  - unfold noRounding. intros H. rewrite E.
    destruct (additionsExact_value (areas farms) (S754_zero false) H)
      as [Hf Hv].
    split; [exact Hf |]. rewrite Hv. cbn. ring.
Qed.

(** C4, as amended.  The average yield is the sum of the
    [yield_per_hectare] values accumulated from 0 in list order, each
    addition rounded, divided by the number of predictions, the quotient
    rounded; it is 0 for the empty list, and it is the arithmetic mean of
    the values whenever neither an addition nor the division rounds. *)
Theorem avgYield_is_rounded_sum_over_count (predictions : list Prediction.t) :
  avgYield predictions
  = match predictions with
    | [] => S754_zero false
    | _ =>
        div (accumulate (S754_zero false) (yields predictions))
          (ofNat (List.length predictions))
    end
  /\ avgYield [] = S754_zero false
  /\ ((Z.of_nat (List.length predictions) < 2 ^ 32)%Z ->
      meanExact predictions = true ->
      isFinite (avgYield predictions) = true
      /\ value (avgYield predictions)
         == Dashboard.mean (map value (yields predictions))).
Proof.
  assert (E : forall p ps,
            avgYield (p :: ps)
            = div (accumulate (S754_zero false) (yields (p :: ps)))
                (ofNat (List.length (p :: ps)))).
  { intros p ps. unfold avgYield, yields.
    change (0 <? List.length (p :: ps))%nat with true. cbv iota.
    rewrite fold_left_accumulate. reflexivity. }
  split; [destruct predictions; [reflexivity | apply E] |].
  split; [reflexivity |].
  intros Hlen Hexact. destruct predictions as [| p ps].
  - split; reflexivity.
  - unfold meanExact in Hexact. apply andb_prop in Hexact as [Hadd Hdiv].
    rewrite E.
    set (s := accumulate (S754_zero false) (yields (p :: ps))) in *.
    set (n := List.length (p :: ps)) in *.
    unfold dividesExactly in Hdiv.
    apply andb_prop in Hdiv as [Hdiv Hq].
    apply andb_prop in Hdiv as [Hdiv _].
    apply andb_prop in Hdiv as [_ Hfin].
    apply Qeq_bool_iff in Hq.
    split; [exact Hfin |].
    destruct (additionsExact_value (yields (p :: ps)) (S754_zero false) Hadd)
      as [_ Hsum].
    fold s in Hsum.
    destruct (ofZ_exact (Z.of_nat n)) as [_ Hn]; [lia |].
    fold (ofNat n) in Hn.
    rewrite Hq, Hsum, Hn.
    unfold Dashboard.mean, yields.
    cbn [map]. cbn [List.length]. rewrite !length_map.
    change (S (List.length ps)) with n.
    change (value (S754_zero false)) with 0. rewrite Qplus_0_l.
    reflexivity.
Qed.

(** *** Concrete runs *)

(** 0.1 + 0.2 + 0.3 from the left is 0.6000000000000001, from the right
    0.6, the double of the literal. *)
Example total_of_tenths :
  totalArea Samples.tenths = S754_finite false 5404319552844596 (-53)
  /\ totalArea (rev Samples.tenths)
     = S754_finite false 5404319552844595 (-53)
  /\ decimal 6 10 = S754_finite false 5404319552844595 (-53).
Proof. vm_compute. repeat split. Qed.

(** 0.01 + 2.04 is 2.0499999999999998 and reads "2.0 ha". *)
Example total_area_text_rounds_down :
  totalAreaText [Samples.farmOf 1 100; Samples.farmOf 204 100] = "2.0 ha"%string.
Proof. vm_compute. reflexivity. Qed.

Example total_area_text_of_halves :
  totalAreaText Samples.halves = "4.0 ha"%string.
Proof. vm_compute. reflexivity. Qed.

(** The average of three yields of 0.1 is 0.10000000000000002. *)
Example average_of_three_tenths :
  avgYield Samples.threeTenths = S754_finite false 7205759403792795 (-56)
  /\ decimal 1 10 = S754_finite false 7205759403792794 (-56).
Proof. vm_compute. split; reflexivity. Qed.

(** The average of 0.01, 0.31 and 0.13 reads "0.1 t/ha". *)
Example average_text_rounds_down :
  avgYieldText
    [Samples.predictionOf 1 100; Samples.predictionOf 31 100;
     Samples.predictionOf 13 100]
  = "0.1 t/ha"%string.
Proof. vm_compute. reflexivity. Qed.

(** C3, as stated, fails: the total of farms of 0.1, 0.2 and 0.3 hectares
    is not the sum of these three areas. *)
Lemma rounded_total_is_not_the_sum :
  ~ (forall farms : list Farm.t,
       forallb isFinite (areas farms) = true ->
       value (totalArea farms) == Dashboard.sum (map value (areas farms))).
Proof.
  intros H. specialize (H Samples.tenths eq_refl).
  vm_compute in H. discriminate H.
Qed.

(** C4, as stated, fails: the average of three yields of 0.1 is not their
    arithmetic mean, it is larger than each of them. *)
Lemma rounded_average_is_not_the_mean :
  ~ (forall predictions : list Prediction.t,
       forallb isFinite (yields predictions) = true ->
       value (avgYield predictions)
       == Dashboard.mean (map value (yields predictions))).
Proof.
  intros H. specialize (H Samples.threeTenths eq_refl).
  vm_compute in H. discriminate H.
Qed.

Lemma totalArea_witness_binary64 :
  noRounding Samples.halves = true
  /\ isFinite (totalArea Samples.halves) = true
  /\ value (totalArea Samples.halves)
     == Dashboard.sum (map value (areas Samples.halves)).
Proof.
  assert (H : noRounding Samples.halves = true) by (vm_compute; reflexivity).
  split; [exact H |].
  exact (proj2 (proj2 (proj2
           (totalArea_is_rounded_running_sum Samples.halves))) H).
Defined.

Lemma avgYield_witness_binary64 :
  (Z.of_nat (List.length Samples.twoYields) < 2 ^ 32)%Z
  /\ meanExact Samples.twoYields = true
  /\ isFinite (avgYield Samples.twoYields) = true
  /\ value (avgYield Samples.twoYields)
     == Dashboard.mean (map value (yields Samples.twoYields)).
Proof.
  assert (Hlen : (Z.of_nat (List.length Samples.twoYields) < 2 ^ 32)%Z)
    by (vm_compute; reflexivity).
  assert (H : meanExact Samples.twoYields = true)
    by (vm_compute; reflexivity).
  split; [exact Hlen |]. split; [exact H |].
  exact (proj2 (proj2
           (avgYield_is_rounded_sum_over_count Samples.twoYields)) Hlen H).
Defined.

End DashboardBinary64Facts.
